(** * DSMR P1 telegram reader: a shallow embedding of [telegram_from_serial.py]

    The script reads lines from a serial port until the checksum line (the
    one starting with an exclamation mark), looks for the checksum, splits
    the telegram into OBIS lines, stores code and value in a dictionary and
    cleans the values of the known codes with [clean_value].

    The embedding follows the script statement by statement.  Python [bytes]
    are lists of [byte], Python [str] is [string]; exceptions are values of
    [exn] carried by the result type [run]. *)

From Stdlib Require Import Strings.String Strings.Ascii Strings.Byte.
From Stdlib Require Import Lists.List Bool.Bool Arith.PeanoNat.
From Stdlib Require Import NArith.NArith ZArith.ZArith QArith.QArith Lia.
From Stdlib Require Import Sorting.Permutation Sorting.Sorted.
Import ListNotations.

Local Close Scope Q_scope.
Local Open Scope nat_scope.
Local Open Scope string_scope.
Local Open Scope list_scope.

(** ** Python values and control *)

(** The exceptions the script can meet.  [SystemExit] (raised by [sys.exit])
    and [KeyboardInterrupt] derive from [BaseException] only, so a clause
    [except Exception] does not catch them. *)
Inductive exn : Type :=
| ValueError
| KeyError (key : string)
| AttributeError
| TypeError
| UnboundLocalError
| OverflowError
| SerialException
| KeyboardInterrupt
| SystemExit (msg : string).

Definition is_Exception (e : exn) : bool :=
  match e with
  | KeyboardInterrupt | SystemExit _ => false
  | _ => true
  end.

(** Result of running a piece of the script: it finishes with a value, it
    raises, or it never finishes. *)
Inductive run (A : Type) : Type :=
| Done (a : A)
| Raised (e : exn)
| Loops.
Arguments Done {A} a.
Arguments Raised {A} e.
Arguments Loops {A}.

Definition bind {A B : Type} (m : run A) (k : A -> run B) : run B :=
  match m with
  | Done a => k a
  | Raised e => Raised e
  | Loops => Loops
  end.

Notation "x <- m ;; k" := (bind m (fun x => k))
  (at level 61, m at next level, right associativity).

(** [for x in xs: body], the body threading a state and possibly raising. *)
Fixpoint for_each {A S : Type} (body : A -> S -> run S) (xs : list A) (s : S)
  : run S :=
  match xs with
  | [] => Done s
  | x :: xs' => s' <- body x s ;; for_each body xs' s'
  end.

(** ** Characters and strings *)

Definition CR : ascii := ascii_of_nat 13.
Definition LF : ascii := ascii_of_nat 10.
Definition TAB : ascii := ascii_of_nat 9.
Definition DQUOTE : ascii := ascii_of_nat 34.

Definition code_of (c : ascii) : N := N_of_ascii c.

Definition is_digit (c : ascii) : bool :=
  (48 <=? code_of c)%N && (code_of c <=? 57)%N.

(** [c in chars] for a one-character [c]. *)
Fixpoint char_in (c : ascii) (chars : string) : bool :=
  match chars with
  | EmptyString => false
  | String d chars' => Ascii.eqb c d || char_in c chars'
  end.

(** [s.startswith(p)]. *)
Fixpoint starts_with (p s : string) : bool :=
  match p, s with
  | EmptyString, _ => true
  | String a p', String b s' => Ascii.eqb a b && starts_with p' s'
  | String _ _, EmptyString => false
  end.

(** [needle in hay] on [str]. *)
Fixpoint str_in (needle hay : string) : bool :=
  starts_with needle hay ||
  match hay with
  | EmptyString => false
  | String _ hay' => str_in needle hay'
  end.

(** [s.lstrip(chars)]: drop the leading characters that are in [chars]. *)
Fixpoint lstrip (chars s : string) : string :=
  match s with
  | EmptyString => EmptyString
  | String c s' => if char_in c chars then lstrip chars s' else s
  end.

(** [s.rstrip(chars)]: drop the trailing characters that are in [chars]. *)
Fixpoint rstrip (chars s : string) : string :=
  match s with
  | EmptyString => EmptyString
  | String c s' =>
      match rstrip chars s' with
      | EmptyString => if char_in c chars then EmptyString else String c EmptyString
      | r => String c r
      end
  end.

(** [''.join(l)]. *)
Definition join (l : list string) : string :=
  fold_right String.append EmptyString l.

(** [s.split(sep)] for a non-empty [sep]: the separators are found from left
    to right and do not overlap.  [skip] counts the characters of a found
    separator still to pass over; [cur] is the piece being read, reversed. *)
Fixpoint split_from (sep : string) (skip : nat) (cur : list ascii) (s : string)
  : list string :=
  match s with
  | EmptyString => [string_of_list_ascii (rev cur)]
  | String c s' =>
      match skip with
      | S k => split_from sep k cur s'
      | O =>
          if starts_with sep s
          then string_of_list_ascii (rev cur)
                 :: split_from sep (String.length sep - 1) [] s'
          else split_from sep 0 (c :: cur) s'
      end
  end.

Definition py_split (sep s : string) : list string := split_from sep 0 [] s.

(** ** [str(bytes)]

    [str] of a [bytes] object is its [repr]: the letter b, a quote, the
    bytes with the non-printable ones escaped, the quote again.  The quote is
    the single quote unless the bytes hold a single quote and no double one. *)

Definition hexdigit (n : N) : ascii :=
  nth (N.to_nat n) (list_ascii_of_string "0123456789abcdef") "0"%char.

Definition bytes_quote (bs : list byte) : ascii :=
  if existsb (Byte.eqb x27) bs && negb (existsb (Byte.eqb x22) bs)
  then DQUOTE else "'"%char.

Definition repr_byte (quote : ascii) (b : byte) : string :=
  let c := ascii_of_byte b in
  let n := Byte.to_N b in
  if Ascii.eqb c quote || Ascii.eqb c "\"%char then String "\" (String c "")
  else if (n =? 9)%N then "\t"
  else if (n =? 10)%N then "\n"
  else if (n =? 13)%N then "\r"
  else if (n <? 32)%N || (127 <=? n)%N
       then String "\" (String "x" (String (hexdigit (n / 16))
                                      (String (hexdigit (n mod 16)) "")))
  else String c "".

Definition py_str_bytes (bs : list byte) : string :=
  let q := bytes_quote bs in
  String "b" (String q (join (map (repr_byte q) bs) ++ String q "")).

(** A [bytes] literal written as text, and the same followed by CR LF. *)
Definition bytes_of (s : string) : list byte := list_byte_of_string s.
Definition bline (s : string) : list byte := bytes_of s ++ [x0d; x0a].

(** ** Regular expressions of the script *)

(** [re.match(b'(?=!)', telegram_line)]: the line starts with an
    exclamation mark. *)
Definition re_match_bang (telegram_line : list byte) : bool :=
  match telegram_line with
  | b :: _ => Byte.eqb b x21
  | [] => false
  end.

(** [pattern = re.compile('\r\n(?=!)')]: a carriage return and a line feed
    (the two characters, the pattern is not a raw string) followed by an
    exclamation mark that is not consumed.  [pattern_finditer] lists
    [m.end()] of the successive matches; a match is two characters wide and
    starts with CR, so no match can start inside another one. *)
Definition pattern_text : string := String CR (String LF "!").

Fixpoint pattern_finditer_at (pos : nat) (s : string) : list nat :=
  match s with
  | EmptyString => []
  | String _ s' =>
      (if starts_with pattern_text s then [pos + 2] else [])
        ++ pattern_finditer_at (S pos) s'
  end.

Definition pattern_finditer (s : string) : list nat := pattern_finditer_at 0 s.

(** [re.match('\\d', telegram_line)]: the first character is a decimal
    digit (among the characters of one byte the class is 0 to 9). *)
Definition re_match_digit (telegram_line : string) : bool :=
  match telegram_line with
  | String c _ => is_digit c
  | EmptyString => false
  end.

(** [re.split('(\\()', telegram_line)]: the line is cut at every opening
    parenthesis and, the pattern being a group, the parentheses are kept as
    pieces of their own. *)
Fixpoint re_split_paren_from (cur : list ascii) (s : string) : list string :=
  match s with
  | EmptyString => [string_of_list_ascii (rev cur)]
  | String c s' =>
      if Ascii.eqb c "("
      then string_of_list_ascii (rev cur) :: "(" :: re_split_paren_from [] s'
      else re_split_paren_from (c :: cur) s'
  end.

Definition re_split_paren (s : string) : list string := re_split_paren_from [] s.

(** The lazy group of ['\\((.*?)\\)'] read after an opening parenthesis:
    the characters up to the first closing parenthesis, none of which may be
    a line feed (the dot does not match it). *)
Fixpoint until_close (s : string) : option string :=
  match s with
  | EmptyString => None
  | String c s' =>
      if Ascii.eqb c ")" then Some EmptyString
      else if Ascii.eqb c LF then None
      else match until_close s' with
           | Some g => Some (String c g)
           | None => None
           end
  end.

(** [re.findall('\\((.*?)\\)', value)]: the groups of the successive
    matches; after a match the search goes on behind its closing
    parenthesis ([skip] characters further). *)
Fixpoint findall_from (skip : nat) (s : string) : list string :=
  match s with
  | EmptyString => []
  | String c s' =>
      match skip with
      | S k => findall_from k s'
      | O =>
          if Ascii.eqb c "("
          then match until_close s' with
               | Some g => g :: findall_from (S (String.length g)) s'
               | None => findall_from 0 s'
               end
          else findall_from 0 s'
      end
  end.

Definition re_findall_groups (value : string) : list string := findall_from 0 value.

(** ** [float(str)]

    The text is stripped of white space, underscores between digits are
    dropped, and what remains is a sign, then a decimal numeral with an
    optional exponent, or one of inf, infinity, nan in any case.  The value
    of a numeral is kept as the exact rational it denotes (reduced); the
    binary64 number Python returns is its rounding to nearest, which
    [binary64] below takes where the script computes with the value.  The
    sign of zero is not kept. *)
Inductive pyfloat : Type :=
| Finite (q : Q)
| Infinite (negative : bool)
| NaN.

Definition is_space (c : ascii) : bool :=
  let n := code_of c in
  ((9 <=? n) && (n <=? 13) || (n =? 32) || (n =? 133) || (n =? 160))%N.

Definition strip_space (s : string) : string :=
  let fix left (s : string) : string :=
    match s with
    | String c s' => if is_space c then left s' else s
    | EmptyString => EmptyString
    end in
  let fix right (s : string) : string :=
    match s with
    | EmptyString => EmptyString
    | String c s' =>
        match right s' with
        | EmptyString => if is_space c then EmptyString else String c EmptyString
        | r => String c r
        end
    end in
  right (left s).

(** An underscore must stand between two digits. *)
Fixpoint drop_underscores (prev : ascii) (s : string) : option string :=
  match s with
  | EmptyString => if Ascii.eqb prev "_" then None else Some EmptyString
  | String c s' =>
      if Ascii.eqb c "_"
      then if is_digit prev then drop_underscores c s' else None
      else if Ascii.eqb prev "_" && negb (is_digit c) then None
      else match drop_underscores c s' with
           | Some r => Some (String c r)
           | None => None
           end
  end.

Definition lower (c : ascii) : ascii :=
  let n := code_of c in
  if ((65 <=? n) && (n <=? 90))%N then ascii_of_N (n + 32) else c.

Fixpoint lower_str (s : string) : string :=
  match s with
  | EmptyString => EmptyString
  | String c s' => String (lower c) (lower_str s')
  end.

(** The leading digits of [s], as a number and a count, and the rest. *)
Fixpoint read_digits (acc : N) (count : nat) (s : string) : N * nat * string :=
  match s with
  | String c s' =>
      if is_digit c then read_digits (10 * acc + (code_of c - 48)) (S count) s'
      else (acc, count, s)
  | EmptyString => (acc, count, s)
  end.

Definition read_sign (s : string) : bool * string :=
  match s with
  | String "-" s' => (true, s')
  | String "+" s' => (false, s')
  | _ => (false, s)
  end.

(** [e] or [E], an optional sign and at least one digit, to the end. *)
Definition read_exponent (s : string) : option Z :=
  match s with
  | EmptyString => Some 0%Z
  | String c s' =>
      if Ascii.eqb (lower c) "e"
      then let '(neg, s1) := read_sign s' in
           match read_digits 0 0 s1 with
           | (_, O, _) => None
           | (e, S _, EmptyString) =>
               Some (if neg then (- Z.of_N e)%Z else Z.of_N e)
           | _ => None
           end
      else None
  end.

Definition decimal_value (neg : bool) (mantissa : N) (exp10 : Z) : Q :=
  let m := inject_Z (Z.of_N mantissa) in
  Qred (Qmult (if neg then Qopp m else m) (Qpower (inject_Z 10) exp10)).

Definition parse_number (neg : bool) (s : string) : option pyfloat :=
  let '(int_part, n1, s1) := read_digits 0 0 s in
  let '(mantissa, n2, s2) :=
    match s1 with
    | String "." s1' => read_digits int_part 0 s1'
    | _ => (int_part, O, s1)
    end in
  match (n1 + n2)%nat with
  | O => None
  | S _ =>
      match read_exponent s2 with
      | Some e => Some (Finite (decimal_value neg mantissa (e - Z.of_nat n2)%Z))
      | None => None
      end
  end.

Definition parse_float (s : string) : option pyfloat :=
  match drop_underscores "000" (strip_space s) with
  | None => None
  | Some t =>
      let '(neg, body) := read_sign t in
      let word := lower_str body in
      if String.eqb word "inf" || String.eqb word "infinity"
      then Some (Infinite neg)
      else if String.eqb word "nan" then Some NaN
      else parse_number neg body
  end.

(** [float(s)] raises [ValueError] on a text that is not a number. *)
Definition py_float (s : string) : run pyfloat :=
  match parse_float s with
  | Some x => Done x
  | None => Raised ValueError
  end.

(** ** [clean_value] *)

Definition clean_value (value : string) : run pyfloat :=
  if str_in "m3" value then
    match re_findall_groups value with
    | [_time; value] => py_float (rstrip "\)*m3" (lstrip "\(" value))
    | _ => Raised ValueError   (* the pair cannot be unpacked *)
    end
  else
    py_float (rstrip "\)*kWhA" (lstrip "\(" value)).

(** ** [int(text, 16)] and the CRC-16 of [crcmod]

    [int] strips white space, reads a sign and an optional 0x, then
    hexadecimal digits; a single underscore may stand between two digits and
    right after the 0x. *)

Definition hex_value (c : ascii) : option N :=
  let n := code_of (lower c) in
  if is_digit c then Some (n - 48)%N
  else if ((97 <=? n) && (n <=? 102))%N then Some (n - 87)%N
  else None.

Fixpoint read_hex (acc : N) (prev_digit : bool) (s : string) : option N :=
  match s with
  | EmptyString => if prev_digit then Some acc else None
  | String c s' =>
      if Ascii.eqb c "_"
      then match s' with
           | String d _ => if Ascii.eqb d "_" then None else read_hex acc false s'
           | EmptyString => None
           end
      else match hex_value c with
           | Some v => read_hex (16 * acc + v) true s'
           | None => None
           end
  end.

Definition py_int_hex (text : string) : run Z :=
  let '(neg, body) := read_sign (strip_space text) in
  let digits :=
    match body with
    | String "0" (String x rest) =>
        if Ascii.eqb (lower x) "x"
        then match rest with String "_" rest' => rest' | _ => rest end
        else body
    | _ => body
    end in
  match digits with
  | String "_" _ => Raised ValueError
  | _ =>
      match read_hex 0 false digits with
      | Some n => Done (if neg then (- Z.of_N n)%Z else Z.of_N n)
      | None => Raised ValueError
      end
  end.

(** [crcmod.predefined.mkPredefinedCrcFun('crc16')] on [bytes]: polynomial
    0x18005 bit-reversed (0xA001), register starting at 0, no final xor. *)
Definition crc16_bit (crc : Z) : Z :=
  if Z.testbit crc 0 then Z.lxor (Z.shiftr crc 1) 40961 else Z.shiftr crc 1.

Definition crc16_byte (crc : Z) (b : byte) : Z :=
  Nat.iter 8 crc16_bit (Z.lxor crc (Z.of_N (Byte.to_N b))).

Definition crc16 (data : list byte) : Z := fold_left crc16_byte data 0%Z.

(** ** The dictionaries *)

Definition gas_meter : string := "1".

Definition list_of_interesting_codes : list (string * string) :=
  [ ("1-0:1.8.1", "Meter Reading electricity delivered to client (Tariff 1) in kWh");
    ("1-0:1.8.2", "Meter Reading electricity delivered to client (Tariff 2) in kWh");
    ("1-0:2.8.1", "Meter Reading electricity delivered by client (Tariff 1) in kWh");
    ("1-0:2.8.2", "Meter Reading electricity delivered by client (Tariff 2) in kWh");
    ("0-0:96.14.0", "Tariff indicator electricity");
    ("1-0:1.7.0", "Actual electricity power delivered (+P) in kW");
    ("1-0:2.7.0", "Actual electricity power received (-P) in kW");
    ("0-0:17.0.0", "The actual threshold electricity in kW");
    ("0-0:96.3.10", "Switch position electricity");
    ("0-0:96.7.21", "Number of power failures in any phase");
    ("0-0:96.7.9", "Number of long power failures in any phase");
    ("1-0:32.32.0", "Number of voltage sags in phase L1");
    ("1-0:52.32.0", "Number of voltage sags in phase L2");
    ("1-0:72:32.0", "Number of voltage sags in phase L3");
    ("1-0:32.36.0", "Number of voltage swells in phase L1");
    ("1-0:52.36.0", "Number of voltage swells in phase L2");
    ("1-0:72.36.0", "Number of voltage swells in phase L3");
    ("1-0:31.7.0", "Instantaneous current L1 in A");
    ("1-0:51.7.0", "Instantaneous current L2 in A");
    ("1-0:71.7.0", "Instantaneous current L3 in A");
    ("1-0:21.7.0", "Instantaneous active power L1 (+P) in kW");
    ("1-0:41.7.0", "Instantaneous active power L2 (+P) in kW");
    ("1-0:61.7.0", "Instantaneous active power L3 (+P) in kW");
    ("1-0:22.7.0", "Instantaneous active power L1 (-P) in kW");
    ("1-0:42.7.0", "Instantaneous active power L2 (-P) in kW");
    ("1-0:62.7.0", "Instantaneous active power L3 (-P) in kW");
    (("0-" ++ gas_meter ++ ":24.2.1")%string,
     "Last hourly value (temperature converted), gas delivered to client in m3") ].

(** A [dict] from [str] to [str]: the items in insertion order.  Assigning
    to a key that is present replaces its value where it stands. *)
Definition dict : Type := list (string * string).

Fixpoint dict_set (k v : string) (d : dict) : dict :=
  match d with
  | [] => [(k, v)]
  | (k', v') :: d' =>
      if String.eqb k' k then (k', v) :: d' else (k', v') :: dict_set k v d'
  end.

Fixpoint dict_get (k : string) (d : dict) : option string :=
  match d with
  | [] => None
  | (k', v') :: d' => if String.eqb k' k then Some v' else dict_get k d'
  end.

Definition dict_keys (d : dict) : list string := map fst d.

(** [k in d]. *)
Definition dict_has (k : string) (d : dict) : bool :=
  existsb (String.eqb k) (dict_keys d).

(** [d[k]], raising [KeyError] on a missing key. *)
Definition dict_item (d : dict) (k : string) : run string :=
  match dict_get k d with
  | Some v => Done v
  | None => Raised (KeyError k)
  end.

(** [sorted(d.items())]: pairs compare by their first components and, these
    equal, by the second; the sort is stable. *)
Definition item_ltb (x y : string * string) : bool :=
  String.ltb (fst x) (fst y)
  || String.eqb (fst x) (fst y) && String.ltb (snd x) (snd y).

Fixpoint sorted_insert (x : string * string) (l : list (string * string))
  : list (string * string) :=
  match l with
  | [] => [x]
  | y :: l' => if item_ltb y x then y :: sorted_insert x l' else x :: l
  end.

Definition sorted (l : list (string * string)) : list (string * string) :=
  fold_right sorted_insert [] l.

(** ** The arithmetic of [float]

    A [float] is a binary64 number.  [round64] gives the number nearest to
    a rational, the even one of two equally near: 53 significant bits, the
    least exponent of the last bit being -1074, and infinity from 2^1024 on.
    The values that [py_float] keeps exact are rounded by [binary64] where
    the script computes with them. *)

Definition two_power (k : Z) : Q := Qpower (inject_Z 2) k.

(** The integer part of the binary logarithm of [n / d]. *)
Definition floor_log2 (n d : positive) : Z :=
  let e := (Z.log2 (Zpos n) - Z.log2 (Zpos d))%Z in
  if Qle_bool (two_power e) (Zpos n # d) then e else (e - 1)%Z.

(** The integer nearest to a rational that is not negative, the even one
    of two equally near. *)
Definition round_half_even (q : Q) : Z :=
  let d := Zpos (Qden q) in
  let f := (Qnum q / d)%Z in
  match (2 * (Qnum q mod d) ?= d)%Z with
  | Lt => f
  | Gt => (f + 1)%Z
  | Eq => if Z.even f then f else (f + 1)%Z
  end.

Definition round64 (q : Q) : pyfloat :=
  match Qnum q with
  | Z0 => Finite 0
  | _ =>
      let a := Qmake (Z.abs (Qnum q)) (Qden q) in
      let e := floor_log2 (Z.to_pos (Qnum a)) (Qden a) in
      let u := Z.max (e - 52) (-1074) in
      let m := round_half_even (Qmult a (two_power (- u))) in
      let r := Qmult (inject_Z m) (two_power u) in
      if Qle_bool (two_power 1024) r then Infinite (Qnum q <? 0)%Z
      else Finite (Qred (if (Qnum q <? 0)%Z then Qopp r else r))
  end.

Definition binary64 (x : pyfloat) : pyfloat :=
  match x with
  | Finite q => round64 q
  | _ => x
  end.

Definition q_negative (q : Q) : bool := (Qnum q <? 0)%Z.
Definition q_zero (q : Q) : bool := (Qnum q =? 0)%Z.

(** [a - b] and [a * b] on binary64 numbers. *)
Definition float_sub (a b : pyfloat) : pyfloat :=
  match a, b with
  | NaN, _ | _, NaN => NaN
  | Infinite s, Infinite t => if Bool.eqb s t then NaN else Infinite s
  | Infinite s, Finite _ => Infinite s
  | Finite _, Infinite t => Infinite (negb t)
  | Finite p, Finite q => round64 (Qminus p q)
  end.

Definition float_mul (a b : pyfloat) : pyfloat :=
  match a, b with
  | NaN, _ | _, NaN => NaN
  | Infinite s, Infinite t => Infinite (xorb s t)
  | Infinite s, Finite q | Finite q, Infinite s =>
      if q_zero q then NaN else Infinite (xorb s (q_negative q))
  | Finite p, Finite q => round64 (Qmult p q)
  end.

(** The conversion [%i] of a [float]: it fails on an infinity and on a
    number that is none. *)
Definition format_i (x : pyfloat) : run unit :=
  match x with
  | Finite _ => Done tt
  | Infinite _ => Raised OverflowError
  | NaN => Raised ValueError
  end.

(** [(x - y)*1000] of lines 266 and 272, [x] and [y] being the two cleaned
    powers. *)
Definition net_watts (x y : pyfloat) : pyfloat :=
  float_mul (float_sub (binary64 x) (binary64 y)) (Finite (inject_Z 1000)).

(** ** The serial port

    What the port does during one pass of the main loop: whether [open] and
    [close] raise, and what the successive calls of [readline] give.  Past
    the listed events the meter is silent: every [readline] times out and
    returns the empty [bytes], for ever.  With the exception that [close]
    raises goes the text that [str] gives for it. *)
Inductive read_event : Type :=
| Line (telegram_line : list byte)
| ReadRaises (ex : exn).

Record serial_port : Type := {
  open_raises : option exn;
  readlines : list read_event;
  close_raises : option (exn * string)
}.

(** ** [main] *)

(** The values [print_format] is compared with.  The command line selects
    power, table or cron, and power is the default. *)
Inductive print_format : Type := fmt_string | fmt_code | fmt_table | fmt_power | fmt_cron.

Definition print_format_eqb (a b : print_format) : bool :=
  match a, b with
  | fmt_string, fmt_string | fmt_code, fmt_code | fmt_table, fmt_table
  | fmt_power, fmt_power | fmt_cron, fmt_cron => true
  | _, _ => false
  end.

Definition dailyLine : bool := false.

(** The variables of [main] that live across the passes of its loop.  A
    variable not yet assigned is [None]. *)
Record vars : Type := {
  telegram : string;
  good_checksum : bool;
  given_checksum : option Z;
  calculated_checksum : option Z
}.

Definition initial_vars : vars :=
  {| telegram := ""; good_checksum := false;
     given_checksum := None; calculated_checksum := None |}.

(** How [while not checksum_found] ends. *)
Inductive stop : Type :=
| ChecksumFound
| ReadFailed (ex : exn)
| NoEnd.

(** Lines 151 to 163: every line read is appended as [str(telegram_line)]. *)
Fixpoint read_loop (events : list read_event) (telegram : string) : string * stop :=
  match events with
  | [] => (telegram, NoEnd)
  | ReadRaises ex :: _ => (telegram, ReadFailed ex)
  | Line telegram_line :: events' =>
      let telegram := (telegram ++ py_str_bytes telegram_line)%string in
      if re_match_bang telegram_line then (telegram, ChecksumFound)
      else read_loop events' telegram
  end.

(** The telegram built from the lines read. *)
Definition assemble (lines : list (list byte)) : string :=
  join (map py_str_bytes lines).

(** The messages of [sys.exit] on lines 146 and 175, for the port
    /dev/ttyUSB0; the second quotes [text], the [str] of the exception. *)
Definition open_message : string := "Error when opening /dev/ttyUSB0. Aborting.".
Definition close_message (text : string) : string :=
  ("An error occurred when closing the serial port /dev/ttyUSB0: '"
     ++ text ++ "'.  Aborting.")%string.

(** Lines 134 to 168.  A failure of [open] ends in [sys.exit], whose
    [SystemExit] the enclosing [except Exception] lets through; an
    [Exception] of [readline] is printed and the pass goes on with the
    telegram read so far. *)
Definition capture (ser : serial_port) (v : vars) : run vars :=
  match open_raises ser with
  | Some ex =>
      if is_Exception ex
      then Raised (SystemExit open_message)
      else Raised ex
  | None =>
      let set_telegram t :=
        {| telegram := t; good_checksum := good_checksum v;
           given_checksum := given_checksum v;
           calculated_checksum := calculated_checksum v |} in
      match read_loop (readlines ser) "" with
      | (t, ChecksumFound) => Done (set_telegram t)
      | (t, ReadFailed ex) => if is_Exception ex then Done (set_telegram t) else Raised ex
      | (_, NoEnd) => Loops
      end
  end.

(** Lines 171 to 175. *)
Definition close_port (ser : serial_port) : run unit :=
  match close_raises ser with
  | Some (ex, text) =>
      if is_Exception ex
      then Raised (SystemExit (close_message text))
      else Raised ex
  | None => Done tt
  end.

(** [s[i:]]. *)
Fixpoint str_from (i : nat) (s : string) : string :=
  match i, s with
  | S i', String _ s' => str_from i' s'
  | _, _ => s
  end.

(** [text.decode('ascii')] on a [str]: there is no such attribute. *)
Definition str_decode (text encoding : string) : run string := Raised AttributeError.

(** [crc16(text)] on a [str]: the function takes [bytes] only. *)
Definition crc16_of_str (text : string) : run Z := Raised TypeError.

(** Lines 183 to 187, the body of [for m in pattern.finditer(telegram)];
    [m_end] is [m.end()]. *)
Definition checksum_body (m_end : nat) (v : vars) : run vars :=
  tail <- str_decode (str_from (m_end + 1) (telegram v)) "ascii" ;;
  given <- py_int_hex ("0x" ++ tail)%string ;;
  calculated <- crc16_of_str (String.substring 0 (m_end + 1) (telegram v)) ;;
  Done {| telegram := telegram v;
          good_checksum := if (given =? calculated)%Z then true else good_checksum v;
          given_checksum := Some given;
          calculated_checksum := Some calculated |}.

(** Lines 180 to 189: the loop, then [good_checksum = True]. *)
Definition look_for_checksum (v : vars) : run vars :=
  v' <- for_each checksum_body (pattern_finditer (telegram v)) v ;;
  Done {| telegram := telegram v'; good_checksum := true;
          given_checksum := given_checksum v';
          calculated_checksum := calculated_checksum v' |}.

(** Lines 203 to 215. *)
Definition line_separator : string := "\r\n'b'".

Definition store_line (telegram_values : dict) (telegram_line : string) : dict :=
  if re_match_digit telegram_line then
    let code := join (firstn 1 (re_split_paren telegram_line)) in
    let value := join (skipn 1 (re_split_paren telegram_line)) in
    dict_set code value telegram_values
  else telegram_values.

Definition store_lines (lines : list string) (telegram_values : dict) : dict :=
  fold_left store_line lines telegram_values.

Definition decode_telegram (telegram : string) : dict :=
  store_lines (py_split line_separator telegram) [].

(** Lines 224 to 239: the values of the known codes are cleaned, in the
    order of the sorted items. *)
Definition reading_body (item : string * string) (readings : list (string * pyfloat))
  : run (list (string * pyfloat)) :=
  let '(code, value) := item in
  if dict_has code list_of_interesting_codes
  then value <- clean_value value ;; Done (readings ++ [(code, value)])
  else Done readings.

Definition clean_readings (telegram_values : dict) : run (list (string * pyfloat)) :=
  for_each reading_body (sorted telegram_values) [].

(** [clean_value(telegram_values[code])] for the codes of a printed line,
    from left to right. *)
Fixpoint clean_items (telegram_values : dict) (codes : list string) : run (list pyfloat) :=
  match codes with
  | [] => Done []
  | code :: codes' =>
      raw <- dict_item telegram_values code ;;
      x <- clean_value raw ;;
      xs <- clean_items telegram_values codes' ;;
      Done (x :: xs)
  end.

Definition clean_item (telegram_values : dict) (code : string) : run pyfloat :=
  raw <- dict_item telegram_values code ;;
  clean_value raw.

(** Lines 242 to 267.  The values of the line are computed from left to
    right, the net power last; the line is then laid out, where [%6i]
    converts the net power (the conversions [%s] and [%f] of the other
    values do not fail). *)
Definition table_line (fmt : print_format) (iIter : nat) (telegram_values : dict)
  : run (list pyfloat) :=
  if print_format_eqb fmt fmt_table || (print_format_eqb fmt fmt_cron && (iIter =? 0)%nat) then
    if dailyLine then
      _ <- clean_items telegram_values ["1-0:1.8.1"; "1-0:1.8.2"; "1-0:2.8.1"; "1-0:2.8.2"] ;;
      Raised (SystemExit "")
    else
      energies <- clean_items telegram_values
                    ["1-0:1.8.1"; "1-0:1.8.2"; "1-0:2.8.1"; "1-0:2.8.2"] ;;
      x <- clean_item telegram_values "1-0:1.7.0" ;;
      y <- clean_item telegram_values "1-0:2.7.0" ;;
      _ <- format_i (net_watts x y) ;;
      Done (energies ++ [x; y])
  else Done [].

(** Lines 269 to 273: the two powers, then the layout with [%6i] of the
    net power. *)
Definition power_line (fmt : print_format) (telegram_values : dict) : run (list pyfloat) :=
  if print_format_eqb fmt fmt_power || print_format_eqb fmt fmt_cron
  then
    x <- clean_item telegram_values "1-0:1.7.0" ;;
    y <- clean_item telegram_values "1-0:2.7.0" ;;
    _ <- format_i (net_watts x y) ;;
    Done [x; y]
  else Done [].

(** What a pass of the loop hands to the printing: the failed checksum, or
    the dictionary with the cleaned values, those of the table line and
    those of the power line (the layout of the lines is left out but for
    the conversion that can fail). *)
Inductive report : Type :=
| ChecksumFailed (given calculated : Z)
| Values (telegram_values : dict) (readings : list (string * pyfloat))
         (table power : list pyfloat).

(** Lines 190 to 273. *)
Definition process (fmt : print_format) (iIter : nat) (v : vars) : run report :=
  if negb (good_checksum v) then
    match given_checksum v, calculated_checksum v with
    | Some given, Some calculated => Done (ChecksumFailed given calculated)
    | _, _ => Raised UnboundLocalError
    end
  else
    let telegram_values := decode_telegram (telegram v) in
    readings <- clean_readings telegram_values ;;
    table <- table_line fmt iIter telegram_values ;;
    power <- power_line fmt telegram_values ;;
    Done (Values telegram_values readings table power).

(** One pass of [while(iIter<maxIter)]. *)
Definition iteration (fmt : print_format) (iIter : nat) (ser : serial_port) (v : vars)
  : run (vars * report) :=
  v1 <- capture ser v ;;
  _ <- close_port ser ;;
  v2 <- look_for_checksum v1 ;;
  r <- process fmt iIter v2 ;;
  Done (v2, r).

(** The loop: one port behaviour for each of the [maxIter] passes. *)
Fixpoint main_loop (fmt : print_format) (iIter : nat) (passes : list serial_port)
  (v : vars) : run (list report) :=
  match passes with
  | [] => Done []
  | ser :: passes' =>
      vr <- iteration fmt iIter ser v ;;
      rs <- main_loop fmt (S iIter) passes' (fst vr) ;;
      Done (snd vr :: rs)
  end.

Definition main (fmt : print_format) (passes : list serial_port) : run (list report) :=
  main_loop fmt 0 passes initial_vars.

(** * The vocabulary of the properties and the telegrams of the examples *)

(** A telegram whose checksum line gives 0000 while the CRC-16 of the bytes
    up to and with the exclamation mark is 0xA23A. *)
Definition wrong_checksum_lines : list (list byte) :=
  [ bline "/XMX5LGBBFG1009"; bline "";
    bline "1-0:1.7.0(00.244*kW)"; bline "1-0:2.7.0(00.000*kW)";
    bline "!0000" ].

Definition wrong_checksum_port : serial_port :=
  {| open_raises := None;
     readlines := map Line wrong_checksum_lines;
     close_raises := None |}.

(** A port that fails while the telegram is read: no line starts with an
    exclamation mark. *)
Definition no_terminator_port : serial_port :=
  {| open_raises := None;
     readlines := [ Line (bline "/XMX5LGBBFG1009");
                    Line (bline "1-0:1.7.0(00.244*kW)");
                    Line (bline "1-0:2.7.0(00.000*kW)");
                    Line (bline "0-0:96.1.1(4B41)");
                    ReadRaises SerialException ];
     close_raises := None |}.

Definition is_terminator (ev : read_event) : bool :=
  match ev with
  | Line telegram_line => re_match_bang telegram_line
  | ReadRaises _ => false
  end.

Fixpoint all_chars (p : ascii -> bool) (s : string) : bool :=
  match s with
  | EmptyString => true
  | String c s' => p c && all_chars p s'
  end.

(** The characters of a decimal numeral: digits, point, sign, exponent mark. *)
Definition numeric_char (c : ascii) : bool := is_digit c || char_in c ".+-eE".

Definition numeric_text (s : string) : bool := all_chars numeric_char s.

(** A group: no closing parenthesis and no line feed. *)
Definition group_char (c : ascii) : bool := negb (Ascii.eqb c ")") && negb (Ascii.eqb c LF).

(** A telegram in which the value of a known code is no number. *)
Definition bad_value_port : serial_port :=
  {| open_raises := None;
     readlines := map Line [ bline "/XMX5LGBBFG1009";
                             bline "1-0:1.7.0(abc*kW)";
                             bline "1-0:2.7.0(00.000*kW)";
                             bline "!0000" ];
     close_raises := None |}.

Definition open_fails_port : serial_port :=
  {| open_raises := Some SerialException; readlines := []; close_raises := None |}.

Definition close_fails_port : serial_port :=
  {| open_raises := None;
     readlines := map Line wrong_checksum_lines;
     close_raises := Some (SerialException, "Port must be configured before it can be used.") |}.

(** The text before the first opening parenthesis, and the text from it on. *)
Fixpoint before_paren (s : string) : string :=
  match s with
  | EmptyString => EmptyString
  | String c s' => if Ascii.eqb c "(" then EmptyString else String c (before_paren s')
  end.

Fixpoint from_paren (s : string) : string :=
  match s with
  | EmptyString => EmptyString
  | String c s' => if Ascii.eqb c "(" then s else from_paren s'
  end.

Definition field_of (telegram_line : string) : string * string :=
  (before_paren telegram_line, from_paren telegram_line).

(** The pairs of code and payload of the lines the decoder works on, in the
    order of the telegram. *)
Definition fields (telegram : string) : list (string * string) :=
  map field_of (filter re_match_digit (py_split line_separator telegram)).

Definition store_field (d : dict) (f : string * string) : dict :=
  dict_set (fst f) (snd f) d.

(** A telegram that starts with a data line. *)
Definition data_first_lines : list (list byte) :=
  [ bline "1-0:1.7.0(00.244*kW)"; bline "1-0:2.7.0(00.000*kW)"; bline "!0000" ].

(** *** Telegrams of plain lines

    A line is plain when its text before CR LF is made of printable ASCII
    characters other than the single quote and the backslash, as the lines
    of a meter are. *)
Definition plain_char (c : ascii) : bool :=
  (32 <=? code_of c)%N && (code_of c <? 127)%N
  && negb (Ascii.eqb c "'") && negb (Ascii.eqb c "\").

Definition plain_text (s : string) : bool := all_chars plain_char s.

(** What follows the first b and quote in the telegram of the plain lines
    [bodies] and [last]. *)
Fixpoint tail_text (bodies : list string) (last : string) : string :=
  match bodies with
  | [] => (last ++ "\r\n'")%string
  | body :: bodies' => (body ++ line_separator ++ tail_text bodies' last)%string
  end.

Definition prefix_first (p : string) (pieces : list string) : list string :=
  match pieces with
  | [] => []
  | x :: xs => (p ++ x)%string :: xs
  end.

Definition data_first_port : serial_port :=
  {| open_raises := None;
     readlines := map Line data_first_lines;
     close_raises := None |}.

(** The lines that [read_loop] appends to the telegram: those read up to
    the checksum line, or up to the failure of [readline]. *)
Fixpoint lines_read (events : list read_event) : list (list byte) :=
  match events with
  | [] => []
  | ReadRaises _ :: _ => []
  | Line telegram_line :: events' =>
      telegram_line :: (if re_match_bang telegram_line then [] else lines_read events')
  end.

(** *** Further vocabulary *)

(** The printable characters of ASCII, space to tilde. *)
Definition printable_char (c : ascii) : bool :=
  (32 <=? code_of c)%N && (code_of c <=? 126)%N.

(** A read that neither ends the telegram nor fails. *)
Definition is_quiet_read (ev : read_event) : bool :=
  match ev with
  | Line telegram_line => negb (re_match_bang telegram_line)
  | ReadRaises _ => false
  end.

Definition is_values (r : report) : bool :=
  match r with
  | Values _ _ _ _ => true
  | ChecksumFailed _ _ => false
  end.

(** [code in list_of_interesting_codes]. *)
Definition known (code : string) : bool := dict_has code list_of_interesting_codes.

(** The order of [sorted] on the items: [x] before or equal to [y]. *)
Definition item_le (x y : string * string) : Prop := item_ltb y x = false.

(** The six codes of the table line, the last two being those of the power
    line. *)
Definition printed_codes : list string :=
  ["1-0:1.8.1"; "1-0:1.8.2"; "1-0:2.8.1"; "1-0:2.8.2"; "1-0:1.7.0"; "1-0:2.7.0"].

(** The characters that a text read by [float] can hold: white space,
    digits, point, underscore, signs, and the letters of the exponent mark
    and of inf, infinity and nan in either case. *)
Definition float_char (c : ascii) : bool :=
  is_space c || is_digit c || char_in c "._+-" || char_in (lower c) "einftya".

(** The two passes of [strip_space], on their own. *)
Fixpoint space_left (s : string) : string :=
  match s with
  | String c s' => if is_space c then space_left s' else s
  | EmptyString => EmptyString
  end.

Fixpoint space_right (s : string) : string :=
  match s with
  | EmptyString => EmptyString
  | String c s' =>
      match space_right s' with
      | EmptyString => if is_space c then EmptyString else String c EmptyString
      | r => String c r
      end
  end.


(** The fraction of a numeral, read behind its integer part [int_part]:
    the digits behind the point, if there is one. *)
Definition after_point (int_part : N) (s : string) : N * nat * string :=
  match s with
  | String "." s' => read_digits int_part 0 s'
  | _ => (int_part, O, s)
  end.

(** A telegram with the code 1-0:1.8.1 on two data lines, between which a
    read timed out and gave the empty [bytes]. *)
Definition timeout_between_lines : list (list byte) :=
  [ bline "/XMX5LGBBFG1009"; bline "1-0:1.8.1(000001.000*kWh)"; [];
    bline "1-0:1.8.1(000002.000*kWh)"; bline "!0000" ].

(** A telegram whose delivered power is infinite for [float]. *)
Definition infinite_power_port : serial_port :=
  {| open_raises := None;
     readlines := map Line [ bline "/XMX5LGBBFG1009";
                             bline "1-0:1.7.0(inf*kW)";
                             bline "1-0:2.7.0(00.000*kW)";
                             bline "!0000" ];
     close_raises := None |}.

(** * Properties *)

(** ** Strings *)

Lemma char_in_app (c : ascii) (s t : string) :
  char_in c (s ++ t) = char_in c s || char_in c t.
Proof.
  induction s as [|d s IH]; simpl; [reflexivity|].
  now rewrite IH, orb_assoc.
Qed.

Lemma append_empty_r (s : string) : (s ++ "")%string = s.
Proof. induction s; simpl; congruence. Qed.

Lemma append_assoc (s t u : string) : ((s ++ t) ++ u = s ++ (t ++ u))%string.
Proof. induction s; simpl; congruence. Qed.

Lemma join_app (l1 l2 : list string) : join (l1 ++ l2) = (join l1 ++ join l2)%string.
Proof.
  induction l1 as [|x l1 IH]; simpl; [reflexivity|].
  now rewrite IH, append_assoc.
Qed.

(** ** The telegram text never holds a carriage return *)

Lemma repr_byte_no_CR (b : byte) :
  char_in CR (repr_byte "'" b) = false /\ char_in CR (repr_byte DQUOTE b) = false.
Proof. destruct b; split; reflexivity. Qed.

Lemma bytes_quote_cases (bs : list byte) :
  bytes_quote bs = "'"%char \/ bytes_quote bs = DQUOTE.
Proof. unfold bytes_quote. destruct (_ && _); auto. Qed.

Lemma py_str_bytes_no_CR (bs : list byte) : char_in CR (py_str_bytes bs) = false.
Proof.
  unfold py_str_bytes.
  assert (body : forall q, q = "'"%char \/ q = DQUOTE ->
                 char_in CR (join (map (repr_byte q) bs)) = false).
  { intros q Hq. induction bs as [|b bs IH]; simpl; [reflexivity|].
    rewrite char_in_app, IH, orb_false_r.
    destruct Hq as [-> | ->]; apply repr_byte_no_CR. }
  destruct (bytes_quote_cases bs) as [-> | ->]; cbn [char_in];
    rewrite char_in_app, body by auto; reflexivity.
Qed.

Lemma read_loop_no_CR (events : list read_event) (t : string) :
  char_in CR t = false -> char_in CR (fst (read_loop events t)) = false.
Proof.
  revert t. induction events as [|ev events IH]; intros t Ht; simpl; [exact Ht|].
  destruct ev as [l|ex]; simpl; [|exact Ht].
  assert (Ht' : char_in CR (t ++ py_str_bytes l) = false)
    by now rewrite char_in_app, Ht, py_str_bytes_no_CR.
  destruct (re_match_bang l); simpl; auto.
Qed.

Lemma read_loop_assemble (events : list read_event) (t : string) :
  fst (read_loop events t) = (t ++ assemble (lines_read events))%string.
Proof.
  unfold assemble. revert t.
  induction events as [|[l|ex] events IH]; intros t; cbn [read_loop lines_read].
  - now rewrite append_empty_r.
  - destruct (re_match_bang l); cbn [fst map join fold_right].
    + now rewrite append_empty_r.
    + fold (join (map py_str_bytes (lines_read events))).
      now rewrite IH, append_assoc.
  - now rewrite append_empty_r.
Qed.

(** The telegram that [capture] leaves is the text of the lines read. *)
Lemma read_loop_telegram (events : list read_event) :
  fst (read_loop events "") = assemble (lines_read events).
Proof. apply read_loop_assemble. Qed.

Lemma assemble_no_CR (lines : list (list byte)) : char_in CR (assemble lines) = false.
Proof.
  unfold assemble. induction lines as [|l lines IH]; [reflexivity|].
  cbn [map join fold_right]. fold (join (map py_str_bytes lines)).
  now rewrite char_in_app, py_str_bytes_no_CR, IH.
Qed.

Lemma prefix_pattern_needs_CR (c : ascii) (s : string) :
  starts_with pattern_text (String c s) = true -> c = CR.
Proof.
  unfold pattern_text. cbn [starts_with]. intros H.
  apply andb_prop in H as [H _]. now apply Ascii.eqb_eq in H.
Qed.

Lemma pattern_finditer_at_no_CR (s : string) (pos : nat) :
  char_in CR s = false -> pattern_finditer_at pos s = [].
Proof.
  revert pos. induction s as [|c s IH]; intros pos H; [reflexivity|].
  cbn [pattern_finditer_at char_in] in *.
  apply orb_false_iff in H as [Hc Hs].
  rewrite (IH _ Hs), app_nil_r.
  destruct (starts_with pattern_text (String c s)) eqn:E; [|reflexivity].
  apply prefix_pattern_needs_CR in E. subst c.
  now rewrite Ascii.eqb_refl in Hc.
Qed.

(** The pattern of line 66 finds nothing in a telegram read from the port. *)
Lemma pattern_finds_nothing (events : list read_event) :
  pattern_finditer (fst (read_loop events "")) = [].
Proof. apply pattern_finditer_at_no_CR, read_loop_no_CR. reflexivity. Qed.

(** Were the pattern to match, the first statement of the body would raise. *)
Lemma checksum_body_raises (m_end : nat) (v : vars) :
  checksum_body m_end v = Raised AttributeError.
Proof. reflexivity. Qed.

(** After line 189 the flag is set, whatever the loop did. *)
Lemma look_for_checksum_good (v v' : vars) :
  look_for_checksum v = Done v' -> good_checksum v' = true.
Proof.
  unfold look_for_checksum.
  destruct (for_each checksum_body _ v); simpl; intros H; inversion H; reflexivity.
Qed.

(** Hence no pass of the loop reports a failed checksum. *)
Lemma process_never_fails_checksum (fmt : print_format) (iIter : nat) (v v' : vars)
  (given calculated : Z) :
  look_for_checksum v = Done v' ->
  process fmt iIter v' <> Done (ChecksumFailed given calculated).
Proof.
  intros H. apply look_for_checksum_good in H.
  unfold process. rewrite H. simpl.
  destruct (clean_readings _); simpl; try discriminate.
  destruct (table_line _ _ _); simpl; try discriminate.
  destruct (power_line _ _); simpl; discriminate.
Qed.

(** ** The checksum *)

(** C1 (the code departs from the claim).  The telegram above states the
    checksum 0 and the CRC-16 of its bytes through the exclamation mark is
    41530: the claim wants it reported as invalid and not decoded.  The
    script decodes it and hands out its values; the report of a failed
    checksum is never produced. *)
Theorem C1_wrong_checksum_is_decoded :
  crc16 (concat (firstn 4 wrong_checksum_lines) ++ [x21]) = 41530%Z /\
  py_int_hex ("0x" ++ String.substring 1 6 (string_of_list_byte (bline "!0000")))
    = Done 0%Z /\
  main fmt_power [wrong_checksum_port]
    = Done [Values [("1-0:1.7.0", "(00.244*kW)"); ("1-0:2.7.0", "(00.000*kW)")]
                   [("1-0:1.7.0", Finite (Qred 0.244)); ("1-0:2.7.0", Finite (Qred 0))]
                   []
                   [Finite (Qred 0.244); Finite (Qred 0)]].
Proof. repeat split; vm_compute; reflexivity. Qed.

Lemma look_for_checksum_read (events : list read_event)
  (good : bool) (given calculated : option Z) :
  look_for_checksum
    {| telegram := fst (read_loop events ""); good_checksum := good;
       given_checksum := given; calculated_checksum := calculated |}
  = Done {| telegram := fst (read_loop events ""); good_checksum := true;
            given_checksum := given; calculated_checksum := calculated |}.
Proof.
  unfold look_for_checksum. cbn [telegram].
  now rewrite pattern_finds_nothing.
Qed.

(** C2 (the code departs from the claim).  Whatever the port delivers, the
    search of lines 180 to 187 runs its body not once: the telegram is the
    text of the [str(telegram_line)], in which carriage return and line feed
    stand escaped, so the pattern finds no match.  No CRC is computed and no
    checksum is parsed: both variables stay as they were. *)
Theorem C2_checksum_never_computed (events : list read_event)
  (good : bool) (given calculated : option Z) :
  pattern_finditer (fst (read_loop events "")) = [] /\
  look_for_checksum
    {| telegram := fst (read_loop events ""); good_checksum := good;
       given_checksum := given; calculated_checksum := calculated |}
  = Done {| telegram := fst (read_loop events ""); good_checksum := true;
            given_checksum := given; calculated_checksum := calculated |}.
Proof.
  split; [apply pattern_finds_nothing | apply look_for_checksum_read].
Qed.

(** The same on a telegram whose stated checksum is the right one. *)
Example right_checksum_not_computed :
  let lines := firstn 4 wrong_checksum_lines ++ [bline "!A23A"] in
  crc16 (concat (firstn 4 lines) ++ [x21]) = 41530%Z /\
  py_int_hex "0xA23A" = Done 41530%Z /\
  capture {| open_raises := None; readlines := map Line lines; close_raises := None |}
          initial_vars
    = Done {| telegram := assemble lines; good_checksum := false;
              given_checksum := None; calculated_checksum := None |} /\
  look_for_checksum {| telegram := assemble lines; good_checksum := false;
                       given_checksum := None; calculated_checksum := None |}
    = Done {| telegram := assemble lines; good_checksum := true;
              given_checksum := None; calculated_checksum := None |}.
Proof. repeat split; vm_compute; reflexivity. Qed.

(** C3, as stated, fails: the buffer below has no terminator line, and the
    script decodes it like a valid telegram. *)
Lemma C3_no_terminator_is_decoded :
  existsb is_terminator (readlines no_terminator_port) = false /\
  main fmt_power [no_terminator_port]
    = Done [Values [("1-0:1.7.0", "(00.244*kW)"); ("1-0:2.7.0", "(00.000*kW)");
                    ("0-0:96.1.1", "(4B41)\r\n'")]
                   [("1-0:1.7.0", Finite (Qred 0.244)); ("1-0:2.7.0", Finite (Qred 0))]
                   []
                   [Finite (Qred 0.244); Finite (Qred 0)]].
Proof. split; vm_compute; reflexivity. Qed.

(** C3 (amended).  On a telegram made of lines none of which starts with an
    exclamation mark, the search for the checksum finds no match: it raises
    nothing and leaves every variable as it was.  The script has no result
    for a malformed telegram. *)
Theorem C3_no_terminator_no_signal (lines : list (list byte)) (v : vars) :
  existsb re_match_bang lines = false ->
  telegram v = assemble lines ->
  for_each checksum_body (pattern_finditer (telegram v)) v = Done v.
Proof.
  intros _ Ht. unfold pattern_finditer.
  rewrite Ht, (pattern_finditer_at_no_CR _ 0 (assemble_no_CR lines)).
  reflexivity.
Qed.

Lemma C3_no_terminator_no_signal_witness :
  let lines := [bline "/XMX5LGBBFG1009"; bline "1-0:1.7.0(00.244*kW)"] in
  let v := {| telegram := assemble lines; good_checksum := false;
              given_checksum := None; calculated_checksum := None |} in
  existsb re_match_bang lines = false /\
  for_each checksum_body (pattern_finditer (telegram v)) v = Done v.
Proof.
  intros lines v. split; [reflexivity|].
  apply (C3_no_terminator_no_signal lines v); reflexivity.
Defined.

(** ** Stripping *)

#[local] Arguments Ascii.eqb : simpl never.

(** A property of one character, decided on each of the 256 characters. *)
Ltac each_char c := destruct c as [[] [] [] [] [] [] [] []]; vm_compute.

Lemma all_chars_app (p : ascii -> bool) (s t : string) :
  all_chars p (s ++ t) = all_chars p s && all_chars p t.
Proof.
  induction s as [|c s IH]; simpl; [reflexivity|].
  now rewrite IH, andb_assoc.
Qed.

Lemma all_chars_weaken (p q : ascii -> bool) (s : string) :
  (forall c, p c = true -> q c = true) -> all_chars p s = true -> all_chars q s = true.
Proof.
  intros Hpq. induction s as [|c s IH]; simpl; [reflexivity|].
  intros H. apply andb_prop in H as [Hc Hs].
  now rewrite (Hpq _ Hc), IH.
Qed.

Section Strip.

Variable chars : string.

Lemma lstrip_keeps (c : ascii) (s : string) :
  char_in c chars = false -> lstrip chars (String c s) = String c s.
Proof. intros H. simpl. now rewrite H. Qed.

Lemma rstrip_all (s : string) :
  all_chars (fun c => char_in c chars) s = true -> rstrip chars s = "".
Proof.
  induction s as [|c s IH]; simpl; [reflexivity|].
  intros H. apply andb_prop in H as [Hc Hs]. now rewrite IH, Hc.
Qed.

Lemma rstrip_none (s : string) :
  all_chars (fun c => negb (char_in c chars)) s = true -> rstrip chars s = s.
Proof.
  induction s as [|c s IH]; simpl; [reflexivity|].
  intros H. apply andb_prop in H as [Hc Hs]. rewrite IH by exact Hs.
  apply negb_true_iff in Hc. rewrite Hc. now destruct s.
Qed.

Lemma rstrip_app_all (s t : string) :
  all_chars (fun c => char_in c chars) t = true ->
  rstrip chars (s ++ t) = rstrip chars s.
Proof.
  intros Ht. induction s as [|c s IH]; simpl; [now apply rstrip_all|].
  now rewrite IH.
Qed.

End Strip.

Lemma str_in_needs_first (c d : ascii) (s : string) :
  char_in c s = false -> str_in (String c (String d "")) s = false.
Proof.
  induction s as [|a s IH]; [reflexivity|].
  cbn [char_in str_in starts_with]. intros H.
  apply orb_false_iff in H as [Ha Hs].
  now rewrite Ha, (IH Hs).
Qed.

Lemma numeric_char_plain (c : ascii) :
  numeric_char c = true ->
  char_in c "\(" = false /\ char_in c "\)*kWhA" = false /\ char_in c "m" = false.
Proof.
  each_char c; intros H;
    first [discriminate H | repeat split].
Qed.

Lemma numeric_char_gas (c : ascii) :
  numeric_char c = true ->
  char_in c "\(" = false /\ char_in c "\)*m" = false /\ char_in c ")" = false
  /\ Ascii.eqb c "(" = false /\ Ascii.eqb c ")" = false /\ Ascii.eqb c LF = false.
Proof.
  each_char c; intros H;
    first [discriminate H | repeat split].
Qed.

(** The plain path on a parenthesised text followed by a unit tag made of
    the characters that [rstrip] removes. *)
Lemma clean_value_plain (num unit : string) :
  numeric_text num = true ->
  all_chars (fun c => char_in c "*kWhA") unit = true ->
  clean_value ("(" ++ num ++ unit ++ ")") = py_float num.
Proof.
  intros Hnum Hunit.
  assert (Hunit' : all_chars (fun c => char_in c "\)*kWhA") (unit ++ ")") = true).
  { rewrite all_chars_app, andb_true_iff. split; [|reflexivity].
    revert Hunit. apply all_chars_weaken.
    intros c. each_char c; auto. }
  assert (Hm : char_in "m" ("(" ++ num ++ unit ++ ")") = false).
  { cbn [String.append char_in]. rewrite char_in_app, char_in_app.
    replace (char_in "m" num) with false.
    2:{ symmetry. clear - Hnum. induction num as [|c num IH]; [reflexivity|].
        simpl in Hnum. apply andb_prop in Hnum as [Hc Hn].
        cbn [char_in]. rewrite (IH Hn), orb_false_r.
        destruct (numeric_char_plain c Hc) as (_ & _ & H).
        cbn [char_in] in H. rewrite orb_false_r in H.
        now rewrite Ascii.eqb_sym. }
    replace (char_in "m" unit) with false; [reflexivity|].
    symmetry. clear - Hunit. induction unit as [|c unit IH]; [reflexivity|].
    simpl in Hunit. apply andb_prop in Hunit as [Hc Hn].
    cbn [char_in]. rewrite (IH Hn), orb_false_r.
    revert Hc. each_char c; auto. }
  unfold clean_value. rewrite (str_in_needs_first "m" "3" _ Hm).
  assert (Hl : lstrip "\(" ("(" ++ num ++ unit ++ ")") = (num ++ unit ++ ")")%string).
  { change ("(" ++ num ++ unit ++ ")")%string with (String "(" (num ++ unit ++ ")")).
    cbn [lstrip]. change (char_in "(" "\(") with true. cbv iota.
    destruct num as [|c num].
    - destruct unit as [|u unit]; [reflexivity|].
      simpl in Hunit. apply andb_prop in Hunit as [Hu _].
      cbn [String.append]. apply lstrip_keeps.
      revert Hu. each_char u; auto.
    - simpl in Hnum. apply andb_prop in Hnum as [Hc _].
      cbn [String.append]. apply lstrip_keeps.
      now destruct (numeric_char_plain c Hc). }
  rewrite Hl, rstrip_app_all by exact Hunit'.
  rewrite rstrip_none; [reflexivity|].
  revert Hnum. apply all_chars_weaken.
  intros c Hc. destruct (numeric_char_plain c Hc) as (_ & H & _). now rewrite H.
Qed.

(** C5.  A payload made of an opening parenthesis, a numeric text that
    [float] reads as [x], one of the unit tags or none, and a closing
    parenthesis is cleaned to [x]; the field 1-0:1.7.0(00.244*kW), split as
    the decoder splits it, gives 0.244. *)
Theorem C5_plain_value_is_the_number (num unit : string) (x : pyfloat) :
  numeric_text num = true ->
  py_float num = Done x ->
  In unit [""; "*kWh"; "*kW"; "*A"] ->
  clean_value ("(" ++ num ++ unit ++ ")") = Done x /\
  clean_value (join (skipn 1 (re_split_paren "1-0:1.7.0(00.244*kW)")))
    = Done (Finite (Qred 0.244)).
Proof.
  intros Hnum Hx Hunit. split; [|vm_compute; reflexivity].
  rewrite <- Hx. apply clean_value_plain; [exact Hnum|].
  simpl in Hunit. decompose [or] Hunit; subst; try reflexivity; contradiction.
Qed.

Lemma C5_plain_value_is_the_number_witness :
  numeric_text "000123.456" = true /\
  py_float "000123.456" = Done (Finite (Qred 123.456)) /\
  clean_value "(000123.456*kWh)" = Done (Finite (Qred 123.456)).
Proof.
  split; [reflexivity|]. split; [vm_compute; reflexivity|].
  apply (C5_plain_value_is_the_number "000123.456" "*kWh" (Finite (Qred 123.456))).
  - reflexivity.
  - vm_compute; reflexivity.
  - simpl; auto.
Defined.

(** ** The gas value *)

Lemma str_in_app_r (needle s t : string) :
  str_in needle t = true -> str_in needle (s ++ t) = true.
Proof.
  intros H. induction s as [|c s IH]; [exact H|].
  cbn [String.append str_in]. rewrite IH. apply orb_true_r.
Qed.

Lemma rstrip_ext (chars1 chars2 s : string) :
  all_chars (fun c => Bool.eqb (char_in c chars1) (char_in c chars2)) s = true ->
  rstrip chars1 s = rstrip chars2 s.
Proof.
  induction s as [|c s IH]; simpl; [reflexivity|].
  intros H. apply andb_prop in H as [Hc Hs]. rewrite (IH Hs).
  apply Bool.eqb_prop in Hc. now rewrite Hc.
Qed.

Lemma until_close_group (g rest : string) :
  all_chars group_char g = true -> until_close (g ++ String ")" rest) = Some g.
Proof.
  induction g as [|c g IH]; [reflexivity|].
  cbn [all_chars String.append until_close]. intros H.
  apply andb_prop in H as [Hc Hg]. unfold group_char in Hc.
  apply andb_prop in Hc as [H1 H2].
  apply negb_true_iff in H1, H2. now rewrite H1, H2, IH.
Qed.

Lemma findall_from_skip (s rest : string) :
  findall_from (String.length s) (s ++ rest) = findall_from 0 rest.
Proof. induction s as [|c s IH]; [reflexivity|]. exact IH. Qed.

Lemma findall_group (g rest : string) :
  all_chars group_char g = true ->
  findall_from 0 (String "(" (g ++ String ")" rest)) = g :: findall_from 0 rest.
Proof.
  intros Hg. cbn [findall_from]. rewrite Ascii.eqb_refl, (until_close_group _ _ Hg).
  f_equal.
  replace (S (String.length g)) with (String.length (g ++ ")")%string).
  - replace (g ++ String ")" rest)%string with ((g ++ ")") ++ rest)%string
      by (rewrite append_assoc; reflexivity).
    apply findall_from_skip.
  - clear. induction g as [|c g IH]; simpl; [reflexivity|]. now rewrite IH.
Qed.

(** What the gas path gives on a time stamp group followed by a group with
    a numeric text and the tag of cubic metres: the number read from the
    text without its final digits 3. *)
Lemma clean_value_gas (time num : string) :
  all_chars group_char time = true ->
  numeric_text num = true ->
  clean_value ("(" ++ time ++ ")(" ++ num ++ "*m3)") = py_float (rstrip "3" num).
Proof.
  intros Htime Hnum.
  assert (Hgroup : all_chars group_char (num ++ "*m3") = true).
  { rewrite all_chars_app, andb_true_iff. split; [|reflexivity].
    revert Hnum. apply all_chars_weaken. intros c Hc.
    destruct (numeric_char_gas c Hc) as (_ & _ & _ & _ & H1 & H2).
    unfold group_char. now rewrite H1, H2. }
  unfold clean_value.
  assert (Hin : str_in "m3" ("(" ++ time ++ ")(" ++ num ++ "*m3)") = true).
  { apply (str_in_app_r "m3" "("), (str_in_app_r "m3" time),
      (str_in_app_r "m3" ")("), (str_in_app_r "m3" num). reflexivity. }
  rewrite Hin.
  unfold re_findall_groups.
  change ("(" ++ time ++ ")(" ++ num ++ "*m3)")%string
    with (String "(" (time ++ String ")" (String "(" (num ++ "*m3)")))).
  rewrite (findall_group _ _ Htime).
  replace (num ++ "*m3)")%string with ((num ++ "*m3") ++ String ")" "")%string
    by (rewrite append_assoc; reflexivity).
  rewrite (findall_group _ _ Hgroup). cbn [findall_from].
  f_equal.
  assert (Hl : lstrip "\(" (num ++ "*m3") = (num ++ "*m3")%string).
  { destruct num as [|c num]; [reflexivity|].
    simpl in Hnum. apply andb_prop in Hnum as [Hc _].
    cbn [String.append]. apply lstrip_keeps. now destruct (numeric_char_gas c Hc). }
  rewrite Hl, rstrip_app_all by reflexivity.
  apply rstrip_ext. revert Hnum. apply all_chars_weaken.
  intros c. each_char c; auto.
Qed.

(** The gas value is right when the numeric text does not end in 3. *)
Lemma clean_value_gas_right (time num : string) :
  all_chars group_char time = true ->
  numeric_text num = true ->
  rstrip "3" num = num ->
  clean_value ("(" ++ time ++ ")(" ++ num ++ "*m3)") = py_float num.
Proof. intros Ht Hn H3. now rewrite clean_value_gas, H3. Qed.

(** C4 (the code departs from the claim).  The example of the claim gives
    1.001.  A numeric text that ends in 3 loses its last digits with the
    unit tag, the tag being removed as a set of characters: 00001.003 is
    cleaned to 1 where the text denotes 1.003. *)
Theorem C4_gas_value_ending_in_3 :
  clean_value "(200102151415S)(00001.001*m3)" = Done (Finite (Qred 1.001)) /\
  clean_value "(200102151415S)(00001.003*m3)" = Done (Finite (Qred 1)) /\
  py_float "00001.003" = Done (Finite (Qred 1.003)) /\
  ~ Qeq 1 1.003.
Proof.
  repeat split; try (vm_compute; reflexivity).
  intros H. vm_compute in H. discriminate H.
Qed.

(** C10.  Which path [clean_value] takes depends on the payload alone, on
    whether it holds the two characters m3: without them the plain path is
    taken; with them the second of exactly two parenthesised groups is
    cleaned, and any other number of groups ends in a [ValueError] that
    neither [clean_value] nor the loop over the known codes catches,
    whatever the code. *)
Theorem C10_gas_path_needs_two_groups (value : string) :
  (str_in "m3" value = false ->
   clean_value value = py_float (rstrip "\)*kWhA" (lstrip "\(" value))) /\
  (str_in "m3" value = true ->
   forall time group, re_findall_groups value = [time; group] ->
   clean_value value = py_float (rstrip "\)*m3" (lstrip "\(" group))) /\
  (str_in "m3" value = true ->
   List.length (re_findall_groups value) <> 2 ->
   clean_value value = Raised ValueError /\
   forall code readings,
     dict_has code list_of_interesting_codes = true ->
     reading_body (code, value) readings = Raised ValueError).
Proof.
  unfold reading_body, clean_value. split; [|split].
  - intros H. now rewrite H.
  - intros H time group Hg. now rewrite H, Hg.
  - intros H Hlen. rewrite H. split.
    + destruct (re_findall_groups value) as [|a [|b [|c l]]];
        try reflexivity. now contradict Hlen.
    + intros code readings Hcode. rewrite Hcode.
      destruct (re_findall_groups value) as [|a [|b [|c l]]];
        try reflexivity. now contradict Hlen.
Qed.

Lemma C10_gas_path_needs_two_groups_witness :
  clean_value "(00.244*kW)" = py_float "00.244" /\
  clean_value "(200102151415S)(00001.001*m3)" = py_float "00001.001" /\
  clean_value "(00001.001*m3)" = Raised ValueError /\
  clean_value "(a)(b)(1*m3)" = Raised ValueError.
Proof.
  split; [|split; [|split]].
  - apply (proj1 (C10_gas_path_needs_two_groups "(00.244*kW)")). reflexivity.
  - apply (proj1 (proj2 (C10_gas_path_needs_two_groups "(200102151415S)(00001.001*m3)"))
             eq_refl "200102151415S" "00001.001*m3"). reflexivity.
  - apply (proj2 (proj2 (C10_gas_path_needs_two_groups "(00001.001*m3)"))).
    + reflexivity.
    + simpl. discriminate.
  - apply (proj2 (proj2 (C10_gas_path_needs_two_groups "(a)(b)(1*m3)"))).
    + reflexivity.
    + simpl. discriminate.
Defined.

(** ** Exceptions of [clean_value] reach the top *)

Lemma py_float_outcome (s : string) :
  (exists x, py_float s = Done x) \/ py_float s = Raised ValueError.
Proof. unfold py_float. destruct (parse_float s); eauto. Qed.

Lemma clean_value_outcome (value : string) :
  (exists x, clean_value value = Done x) \/ clean_value value = Raised ValueError.
Proof.
  unfold clean_value. destruct (str_in "m3" value); [|apply py_float_outcome].
  destruct (re_findall_groups value) as [|a [|b [|c l]]]; auto using py_float_outcome.
Qed.

Lemma clean_readings_from (items : list (string * string)) (code raw : string)
  (readings : list (string * pyfloat)) :
  In (code, raw) items ->
  dict_has code list_of_interesting_codes = true ->
  clean_value raw = Raised ValueError ->
  for_each reading_body items readings = Raised ValueError.
Proof.
  intros Hin Hcode Hraw. revert readings.
  induction items as [|[c r] items IH]; intros readings; [contradiction|].
  cbn [for_each reading_body].
  destruct Hin as [E | Hin].
  - inversion E; subst. now rewrite Hcode, Hraw.
  - destruct (dict_has c list_of_interesting_codes); cbn [bind]; [|now apply IH].
    destruct (clean_value_outcome r) as [[x ->] | ->]; cbn [bind]; [now apply IH | reflexivity].
Qed.

Lemma sorted_insert_In (x y : string * string) (l : list (string * string)) :
  In x (sorted_insert y l) <-> x = y \/ In x l.
Proof.
  induction l as [|z l IH]; simpl; [intuition auto|].
  destruct (item_ltb z y); simpl; rewrite ?IH; intuition auto.
Qed.

Lemma sorted_In (x : string * string) (l : list (string * string)) :
  In x (sorted l) <-> In x l.
Proof.
  induction l as [|y l IH]; simpl; [tauto|].
  rewrite sorted_insert_In, IH. intuition auto.
Qed.

Lemma dict_get_In (k v : string) (d : dict) : dict_get k d = Some v -> In (k, v) d.
Proof.
  induction d as [|[k' v'] d IH]; simpl; [discriminate|].
  destruct (String.eqb_spec k' k) as [-> | _]; intros H.
  - inversion H. auto.
  - auto.
Qed.

Lemma clean_readings_raises (telegram_values : dict) (code raw : string) :
  dict_get code telegram_values = Some raw ->
  dict_has code list_of_interesting_codes = true ->
  clean_value raw = Raised ValueError ->
  clean_readings telegram_values = Raised ValueError.
Proof.
  intros Hget. apply clean_readings_from, sorted_In, dict_get_In, Hget.
Qed.

(** What [capture] leaves in the variables. *)
Lemma capture_done (ser : serial_port) (v v1 : vars) :
  capture ser v = Done v1 ->
  v1 = {| telegram := fst (read_loop (readlines ser) "");
          good_checksum := good_checksum v;
          given_checksum := given_checksum v;
          calculated_checksum := calculated_checksum v |}.
Proof.
  unfold capture. destruct (open_raises ser) as [ex|].
  - destruct (is_Exception ex); discriminate.
  - destruct (read_loop (readlines ser) "") as [t [ | ex | ]]; simpl.
    + now intros [= <-].
    + destruct (is_Exception ex); [now intros [= <-] | discriminate].
    + discriminate.
Qed.

Lemma look_for_checksum_captured (ser : serial_port) (v v1 : vars) :
  capture ser v = Done v1 ->
  look_for_checksum v1
  = Done {| telegram := telegram v1; good_checksum := true;
            given_checksum := given_checksum v1;
            calculated_checksum := calculated_checksum v1 |}.
Proof.
  intros H. apply capture_done in H. subst v1. cbn [telegram given_checksum calculated_checksum].
  apply look_for_checksum_read.
Qed.

(** C6, as stated, fails: the value of 1-0:1.7.0 below has no numeral, and
    the whole run ends with the [ValueError]; the next telegram is not
    read. *)
Lemma C6_bad_value_ends_the_run :
  dict_has "1-0:1.7.0" list_of_interesting_codes = true /\
  clean_value "(abc*kW)" = Raised ValueError /\
  main fmt_power [bad_value_port; wrong_checksum_port] = Raised ValueError.
Proof. repeat split; vm_compute; reflexivity. Qed.

(** C6 (amended).  When the telegram read in a pass holds a known code
    whose payload [clean_value] cannot turn into a number, [clean_value]
    raises [ValueError]; nothing catches it, so the pass and the whole loop
    end with it. *)
Theorem C6_unparseable_value_raises (fmt : print_format) (iIter : nat)
  (ser : serial_port) (passes : list serial_port) (v v1 : vars) (code raw : string) :
  capture ser v = Done v1 ->
  close_raises ser = None ->
  dict_get code (decode_telegram (telegram v1)) = Some raw ->
  dict_has code list_of_interesting_codes = true ->
  clean_value raw = Raised ValueError ->
  main_loop fmt iIter (ser :: passes) v = Raised ValueError.
Proof.
  intros Hcap Hclose Hget Hcode Hraw.
  cbn [main_loop]. unfold iteration, close_port.
  rewrite Hcap, Hclose. cbn [bind].
  rewrite (look_for_checksum_captured _ _ _ Hcap). cbn [bind].
  unfold process. cbn [good_checksum negb telegram].
  now rewrite (clean_readings_raises _ _ _ Hget Hcode Hraw).
Qed.

Lemma C6_unparseable_value_raises_witness :
  main_loop fmt_power 0 [bad_value_port; wrong_checksum_port] initial_vars
  = Raised ValueError.
Proof.
  apply (C6_unparseable_value_raises fmt_power 0 bad_value_port [wrong_checksum_port]
           initial_vars
           {| telegram := fst (read_loop (readlines bad_value_port) "");
              good_checksum := false; given_checksum := None;
              calculated_checksum := None |}
           "1-0:1.7.0" "(abc*kW)").
  - reflexivity.
  - reflexivity.
  - reflexivity.
  - reflexivity.
  - reflexivity.
Defined.

(** ** Failures of the port *)

(** C7, as stated, fails: the port cannot be opened in the first pass, or
    cannot be closed, and the run ends with the [SystemExit] of [sys.exit];
    the second pass, on a port in order, does not take place. *)
Lemma C7_open_failure_ends_the_run :
  main fmt_power [open_fails_port; wrong_checksum_port]
    = Raised (SystemExit "Error when opening /dev/ttyUSB0. Aborting.") /\
  main fmt_power [close_fails_port; wrong_checksum_port]
    = Raised (SystemExit
        "An error occurred when closing the serial port /dev/ttyUSB0: 'Port must be configured before it can be used.'.  Aborting.").
Proof. split; vm_compute; reflexivity. Qed.

(** C7 (amended).  When [open] raises, or when the lines were read and
    [close] raises, the loop ends: with the [SystemExit] of [sys.exit] if
    the exception is of the class [Exception], the message for [close]
    quoting its text, and with the exception itself if it is not.  An
    exception of [readline] that is of the class [Exception] is caught and
    the pass goes on with the part of the telegram read so far; one that is
    not ends the pass with it.  A read that times out raises nothing: the
    empty [bytes] are appended and the loop reads on. *)
Theorem C7_port_failures (fmt : print_format) (iIter : nat) (ser : serial_port)
  (passes : list serial_port) (v : vars) (ex : exn) (text : string) :
  (open_raises ser = Some ex ->
   main_loop fmt iIter (ser :: passes) v
   = Raised (if is_Exception ex then SystemExit open_message else ex)) /\
  (forall v1, capture ser v = Done v1 -> close_raises ser = Some (ex, text) ->
   main_loop fmt iIter (ser :: passes) v
   = Raised (if is_Exception ex then SystemExit (close_message text) else ex)) /\
  (open_raises ser = None ->
   snd (read_loop (readlines ser) "") = ReadFailed ex ->
   capture ser v
   = if is_Exception ex
     then Done {| telegram := fst (read_loop (readlines ser) "");
                  good_checksum := good_checksum v;
                  given_checksum := given_checksum v;
                  calculated_checksum := calculated_checksum v |}
     else Raised ex) /\
  (forall events t,
   read_loop (Line [] :: events) t = read_loop events (t ++ "b''")%string).
Proof.
  split; [|split; [|split]].
  - intros Hopen. cbn [main_loop]. unfold iteration, capture.
    rewrite Hopen. now destruct (is_Exception ex).
  - intros v1 Hcap Hclose. cbn [main_loop]. unfold iteration, close_port.
    rewrite Hcap, Hclose. cbn [bind]. now destruct (is_Exception ex).
  - intros Hopen Hread. unfold capture. rewrite Hopen.
    destruct (read_loop (readlines ser) "") as [t st]. simpl in Hread. subst st.
    reflexivity.
  - reflexivity.
Qed.

Lemma C7_port_failures_witness :
  main_loop fmt_power 0 [open_fails_port; wrong_checksum_port] initial_vars
    = Raised (SystemExit open_message) /\
  main_loop fmt_power 0 [close_fails_port; wrong_checksum_port] initial_vars
    = Raised (SystemExit
                (close_message "Port must be configured before it can be used.")) /\
  capture no_terminator_port initial_vars
    = Done {| telegram := fst (read_loop (readlines no_terminator_port) "");
              good_checksum := false; given_checksum := None;
              calculated_checksum := None |}.
Proof.
  split; [|split].
  - apply (proj1 (C7_port_failures fmt_power 0 open_fails_port [wrong_checksum_port]
                    initial_vars SerialException "")).
    reflexivity.
  - apply (proj1 (proj2 (C7_port_failures fmt_power 0 close_fails_port
                           [wrong_checksum_port] initial_vars SerialException
                           "Port must be configured before it can be used."))
             {| telegram := fst (read_loop (readlines close_fails_port) "");
                good_checksum := false; given_checksum := None;
                calculated_checksum := None |}).
    + reflexivity.
    + reflexivity.
  - apply (proj1 (proj2 (proj2 (C7_port_failures fmt_power 0 no_terminator_port []
                                   initial_vars SerialException "")))).
    + reflexivity.
    + reflexivity.
Defined.

(** ** The decoder *)

Lemma string_of_app (l1 l2 : list ascii) :
  string_of_list_ascii (l1 ++ l2)
  = (string_of_list_ascii l1 ++ string_of_list_ascii l2)%string.
Proof. induction l1 as [|c l1 IH]; simpl; congruence. Qed.

Lemma re_split_paren_join (cur : list ascii) (s : string) :
  join (re_split_paren_from cur s) = (string_of_list_ascii (rev cur) ++ s)%string.
Proof.
  revert cur. induction s as [|c s IH]; intros cur; cbn [re_split_paren_from].
  - reflexivity.
  - destruct (Ascii.eqb_spec c "(") as [-> | _].
    + cbn [join fold_right]. fold (join (re_split_paren_from [] s)).
      now rewrite IH.
    + rewrite IH. cbn [rev]. rewrite string_of_app, append_assoc. reflexivity.
Qed.

Lemma re_split_paren_parts (cur : list ascii) (s : string) :
  exists rest,
    re_split_paren_from cur s
    = (string_of_list_ascii (rev cur) ++ before_paren s)%string :: rest
    /\ join rest = from_paren s.
Proof.
  revert cur. induction s as [|c s IH]; intros cur;
    cbn [re_split_paren_from before_paren from_paren].
  - exists []. now rewrite append_empty_r.
  - destruct (Ascii.eqb_spec c "(") as [-> | _].
    + exists ("(" :: re_split_paren_from [] s)%list. rewrite append_empty_r.
      split; [reflexivity|].
      cbn [join fold_right]. fold (join (re_split_paren_from [] s)).
      now rewrite re_split_paren_join.
    + destruct (IH (c :: cur)) as (rest & E & J). exists rest.
      split; [|exact J]. rewrite E. cbn [rev].
      rewrite string_of_app, append_assoc. reflexivity.
Qed.

(** The code and the value of lines 213 and 214 are these two texts. *)
Lemma code_and_value (telegram_line : string) :
  join (firstn 1 (re_split_paren telegram_line)) = before_paren telegram_line /\
  join (skipn 1 (re_split_paren telegram_line)) = from_paren telegram_line.
Proof.
  unfold re_split_paren.
  destruct (re_split_paren_parts [] telegram_line) as (rest & -> & J).
  cbn [firstn skipn rev string_of_list_ascii join fold_right String.append].
  now rewrite append_empty_r.
Qed.

Lemma before_from_paren (s : string) : (before_paren s ++ from_paren s)%string = s.
Proof.
  induction s as [|c s IH]; [reflexivity|]. cbn [before_paren from_paren].
  destruct (Ascii.eqb c "("); [reflexivity|]. cbn [String.append]. now rewrite IH.
Qed.

Lemma before_paren_has_none (s : string) : char_in "(" (before_paren s) = false.
Proof.
  induction s as [|c s IH]; [reflexivity|]. cbn [before_paren].
  destruct (Ascii.eqb c "(") eqn:E; [reflexivity|].
  cbn [char_in]. now rewrite Ascii.eqb_sym, E, IH.
Qed.

Lemma store_lines_fields (lines : list string) (d : dict) :
  store_lines lines d
  = fold_left store_field (map field_of (filter re_match_digit lines)) d.
Proof.
  revert d. induction lines as [|l lines IH]; intros d; [reflexivity|].
  cbn [store_lines fold_left filter]. unfold store_line at 2.
  destruct (re_match_digit l); cbn [map fold_left].
  - destruct (code_and_value l) as [-> ->]. apply IH.
  - apply IH.
Qed.

(** The decoder, on the pieces into which line 203 cuts the telegram: the
    pieces that start with a digit are stored, each cut at its first
    opening parenthesis. *)
Lemma decode_telegram_fields (telegram : string) :
  decode_telegram telegram = fold_left store_field (fields telegram) [].
Proof. apply store_lines_fields. Qed.

(** *** Assignment to a key *)

Lemma dict_get_set_same (k v : string) (d : dict) :
  dict_get k (dict_set k v d) = Some v.
Proof.
  induction d as [|[k' v'] d IH]; simpl.
  - now rewrite String.eqb_refl.
  - destruct (String.eqb k' k) eqn:E; simpl; now rewrite E.
Qed.

Lemma dict_get_set_other (k k' v : string) (d : dict) :
  k <> k' -> dict_get k (dict_set k' v d) = dict_get k d.
Proof.
  intros Hk. induction d as [|[k2 v2] d IH]; simpl.
  - destruct (String.eqb_spec k' k); [congruence | reflexivity].
  - destruct (String.eqb_spec k2 k') as [-> | Hne]; simpl.
    + destruct (String.eqb_spec k' k); [congruence | reflexivity].
    + now rewrite IH.
Qed.

Lemma dict_keys_set (k v x : string) (d : dict) :
  In x (dict_keys (dict_set k v d)) <-> x = k \/ In x (dict_keys d).
Proof.
  unfold dict_keys. induction d as [|[k' v'] d IH]; simpl.
  - intuition auto.
  - destruct (String.eqb_spec k' k) as [-> | Hne]; simpl; [|rewrite IH];
      intuition auto.
Qed.

Lemma dict_set_NoDup (k v : string) (d : dict) :
  NoDup (dict_keys d) -> NoDup (dict_keys (dict_set k v d)).
Proof.
  unfold dict_keys. induction d as [|[k' v'] d IH]; simpl; intros H.
  - constructor; [intros [] | constructor].
  - inversion H as [|? ? Hnot Hd]; subst.
    destruct (String.eqb_spec k' k) as [-> | Hne]; simpl.
    + now constructor.
    + constructor; [|now apply IH].
      intros Hin. apply dict_keys_set in Hin as [-> | Hin]; [congruence | auto].
Qed.

Lemma store_fields_NoDup (fs : list (string * string)) (d : dict) :
  NoDup (dict_keys d) -> NoDup (dict_keys (fold_left store_field fs d)).
Proof.
  revert d. induction fs as [|f fs IH]; intros d H; [exact H|].
  cbn [fold_left]. apply IH, dict_set_NoDup, H.
Qed.

Lemma store_fields_keep (fs : list (string * string)) (k : string) (d : dict) :
  ~ In k (map fst fs) -> dict_get k (fold_left store_field fs d) = dict_get k d.
Proof.
  revert d. induction fs as [|f fs IH]; intros d H; [reflexivity|].
  cbn [fold_left]. rewrite IH by (intros Hin; apply H; right; exact Hin).
  apply dict_get_set_other. intros ->. apply H. left. reflexivity.
Qed.

Lemma store_fields_last (pre post : list (string * string)) (k v : string) (d : dict) :
  ~ In k (map fst post) ->
  dict_get k (fold_left store_field (pre ++ (k, v) :: post) d) = Some v.
Proof.
  intros H. rewrite fold_left_app. cbn [fold_left].
  rewrite store_fields_keep by exact H.
  apply dict_get_set_same.
Qed.

(** Among the pieces the decoder works on, the last one with a code gives
    the value the dictionary holds for it. *)
Lemma last_duplicate_on_pieces (telegram : string)
  (pre post : list (string * string)) (code payload : string) :
  fields telegram = pre ++ (code, payload) :: post ->
  ~ In code (map fst post) ->
  dict_get code (decode_telegram telegram) = Some payload.
Proof.
  intros Hf Hlast. rewrite decode_telegram_fields, Hf. now apply store_fields_last.
Qed.

(** No key stands twice in the dictionary of a telegram. *)
Lemma decode_telegram_NoDup (telegram : string) :
  NoDup (dict_keys (decode_telegram telegram)).
Proof. rewrite decode_telegram_fields. apply store_fields_NoDup. constructor. Qed.

(** C9 (the code departs from the claim).  The keys of the dictionary are
    unique for every telegram, and a later line overwrites an earlier one
    when both are pieces of the split.  But the telegram below gives the
    code 1-0:1.8.1 on two data lines with a read that timed out between
    them: the empty [bytes] stand in the text as the letter b and two
    quotes, the separator takes the first two of these, and the piece of
    the second line starts with a quote and is passed over.  The dictionary
    holds the payload of the first line, not of the last, and the reading
    printed for the code is 1, not 2. *)
Theorem C9_later_line_lost_after_timeout :
  fst (read_loop (map Line timeout_between_lines) "") = assemble timeout_between_lines /\
  py_split line_separator (assemble timeout_between_lines)
    = ["b'/XMX5LGBBFG1009"; "1-0:1.8.1(000001.000*kWh)";
       "'b'1-0:1.8.1(000002.000*kWh)"; "!0000\r\n'"] /\
  decode_telegram (assemble timeout_between_lines)
    = [("1-0:1.8.1", "(000001.000*kWh)")] /\
  clean_readings (decode_telegram (assemble timeout_between_lines))
    = Done [("1-0:1.8.1", Finite (Qred 1))] /\
  (forall telegram, NoDup (dict_keys (decode_telegram telegram))).
Proof.
  split; [|split; [|split; [|split]]]; try (vm_compute; reflexivity).
  apply decode_telegram_NoDup.
Qed.

(** *** The first line read *)

Lemma split_from_first (sep : string) (s : string) (skip : nat) (cur : list ascii) :
  exists piece pieces,
    split_from sep skip cur s
    = (string_of_list_ascii (rev cur) ++ piece)%string :: pieces.
Proof.
  revert skip cur. induction s as [|c s IH]; intros skip cur; cbn [split_from].
  - exists "", []. now rewrite append_empty_r.
  - destruct skip as [|k]; [|apply IH].
    destruct (starts_with sep (String c s)).
    + exists "". eexists. now rewrite append_empty_r.
    + destruct (IH 0 (c :: cur)) as (p & ps & E).
      exists (String c p), ps. rewrite E. cbn [rev].
      rewrite string_of_app, append_assoc. reflexivity.
Qed.

Lemma py_split_letter_b (tail : string) :
  exists piece pieces,
    py_split line_separator (String "b" tail) = String "b" piece :: pieces.
Proof.
  unfold py_split. cbn [split_from].
  replace (starts_with line_separator (String "b" tail)) with false by reflexivity.
  destruct (split_from_first line_separator tail 0 ["b"%char]) as (p & ps & E).
  exists p, ps. rewrite E. reflexivity.
Qed.

(** C8 (the code departs from the claim).  The first line read stands in
    the telegram behind the letter b and the quote of [str(telegram_line)];
    the first piece cut by line 203 therefore starts with the letter b and
    is never stored, digit or not.  In the telegram that starts with the
    line of 1-0:1.7.0 this line, which starts with a digit, is left out of
    the dictionary, and the run ends on the missing key. *)
Theorem C8_first_line_is_skipped :
  (forall (first : list byte) (rest : list (list byte)),
     exists piece pieces,
       py_split line_separator (assemble (first :: rest)) = String "b" piece :: pieces /\
       decode_telegram (assemble (first :: rest)) = store_lines pieces []) /\
  re_match_digit (string_of_list_byte (hd [] data_first_lines)) = true /\
  py_split line_separator (assemble data_first_lines)
    = ["b'1-0:1.7.0(00.244*kW)"; "1-0:2.7.0(00.000*kW)"; "!0000\r\n'"] /\
  decode_telegram (assemble data_first_lines) = [("1-0:2.7.0", "(00.000*kW)")] /\
  main fmt_power [data_first_port] = Raised (KeyError "1-0:1.7.0").
Proof.
  split; [|repeat split; vm_compute; reflexivity].
  intros first rest. unfold decode_telegram.
  assert (Ht : exists tail, assemble (first :: rest) = String "b" tail)
    by (eexists; reflexivity).
  destruct Ht as (tail & ->).
  destruct (py_split_letter_b tail) as (p & ps & ->).
  exists p, ps. split; reflexivity.
Qed.

Lemma plain_char_repr (c : ascii) :
  plain_char c = true ->
  repr_byte "'" (byte_of_ascii c) = String c "" /\
  Byte.eqb x27 (byte_of_ascii c) = false /\
  Ascii.eqb "\" c = false.
Proof.
  each_char c; intros H;
    first [discriminate H | repeat split].
Qed.

Lemma plain_text_repr (body : string) :
  plain_text body = true ->
  join (map (repr_byte "'") (bytes_of body)) = body /\
  existsb (Byte.eqb x27) (bytes_of body) = false.
Proof.
  unfold bytes_of, list_byte_of_string.
  induction body as [|c body IH]; [split; reflexivity|].
  cbn [plain_text all_chars]. intros H. apply andb_prop in H as [Hc Hb].
  destruct (plain_char_repr c Hc) as (Hr & Hq & _).
  destruct (IH Hb) as [IH1 IH2].
  cbn [list_ascii_of_string map join fold_right existsb].
  fold (join (map (repr_byte "'") (map byte_of_ascii (list_ascii_of_string body)))).
  now rewrite Hr, Hq, IH1, IH2.
Qed.

Lemma py_str_bytes_plain (body : string) :
  plain_text body = true ->
  py_str_bytes (bline body) = ("b'" ++ body ++ "\r\n'")%string.
Proof.
  intros H. destruct (plain_text_repr body H) as [Hj Hq].
  unfold py_str_bytes, bline, bytes_quote.
  rewrite existsb_app, Hq. cbn [existsb orb andb Byte.eqb].
  change (Byte.eqb x27 x0d) with false. change (Byte.eqb x27 x0a) with false.
  cbn [orb andb]. rewrite map_app, join_app, Hj.
  change (join (map (repr_byte "'") [x0d; x0a])) with "\r\n".
  cbn [String.append]. now rewrite append_assoc.
Qed.

Lemma assemble_plain (bodies : list string) (last : string) :
  forallb plain_text bodies = true -> plain_text last = true ->
  assemble (map bline (bodies ++ [last])) = ("b'" ++ tail_text bodies last)%string.
Proof.
  intros Hb Hl. unfold assemble.
  induction bodies as [|body bodies IH];
    cbn [app map join fold_right tail_text].
  - rewrite (py_str_bytes_plain _ Hl), append_empty_r. reflexivity.
  - cbn [forallb] in Hb. apply andb_prop in Hb as [Hbody Hb].
    fold (join (map py_str_bytes (map bline (bodies ++ [last])))).
    rewrite (IH Hb), (py_str_bytes_plain _ Hbody).
    cbn [String.append]. do 2 f_equal.
    rewrite append_assoc. reflexivity.
Qed.

Lemma split_plain_sep (body rest : string) (cur : list ascii) :
  plain_text body = true ->
  split_from line_separator 0 cur (body ++ line_separator ++ rest)
  = (string_of_list_ascii (rev cur) ++ body)%string
      :: split_from line_separator 0 [] rest.
Proof.
  revert cur. induction body as [|c body IH]; intros cur H.
  - rewrite append_empty_r. reflexivity.
  - cbn [plain_text all_chars] in H. apply andb_prop in H as [Hc Hb].
    destruct (plain_char_repr c Hc) as (_ & _ & Hne).
    cbn [String.append split_from]. unfold line_separator at 1.
    cbn [starts_with]. rewrite Hne. cbn [andb].
    rewrite (IH _ Hb). cbn [rev]. rewrite string_of_app, append_assoc. reflexivity.
Qed.

Lemma split_plain_end (body : string) (cur : list ascii) :
  plain_text body = true ->
  split_from line_separator 0 cur (body ++ "\r\n'")
  = [(string_of_list_ascii (rev cur) ++ body ++ "\r\n'")%string].
Proof.
  revert cur. induction body as [|c body IH]; intros cur H.
  - cbn [String.append]. cbv [line_separator split_from starts_with].
    cbn. rewrite !string_of_app, !append_assoc. reflexivity.
  - cbn [plain_text all_chars] in H. apply andb_prop in H as [Hc Hb].
    destruct (plain_char_repr c Hc) as (_ & _ & Hne).
    cbn [String.append split_from]. unfold line_separator at 1.
    cbn [starts_with]. rewrite Hne. cbn [andb].
    rewrite (IH _ Hb). cbn [rev]. rewrite string_of_app, append_assoc. reflexivity.
Qed.

Lemma split_tail_text (bodies : list string) (last : string) (cur : list ascii) :
  forallb plain_text bodies = true -> plain_text last = true ->
  split_from line_separator 0 cur (tail_text bodies last)
  = prefix_first (string_of_list_ascii (rev cur)) (bodies ++ [(last ++ "\r\n'")%string]).
Proof.
  revert cur. induction bodies as [|body bodies IH]; intros cur Hb Hl;
    cbn [tail_text app prefix_first].
  - now apply split_plain_end.
  - cbn [forallb] in Hb. apply andb_prop in Hb as [Hbody Hb].
    rewrite (split_plain_sep _ _ _ Hbody), (IH [] Hb Hl).
    cbn [rev string_of_list_ascii].
    destruct bodies; reflexivity.
Qed.

(** The pieces of line 203 on a telegram of plain lines: the lines without
    their CR LF, but the first behind b and the quote, and the last with
    its escaped CR LF and the closing quote. *)
Lemma py_split_assemble (bodies : list string) (last : string) :
  forallb plain_text bodies = true -> plain_text last = true ->
  py_split line_separator (assemble (map bline (bodies ++ [last])))
  = prefix_first "b'" (bodies ++ [(last ++ "\r\n'")%string]).
Proof.
  intros Hb Hl. rewrite (assemble_plain _ _ Hb Hl).
  unfold py_split. cbn [String.append split_from].
  change (starts_with line_separator (String "b" ?s)) with false. cbv iota.
  change (starts_with line_separator (String "'" ?s)) with false. cbv iota.
  now rewrite (split_tail_text _ _ _ Hb Hl).
Qed.

(** The dictionary of a telegram of plain lines that ends with a line not
    starting with a digit (the checksum line): the lines after the first
    that start with a digit, each cut at its first opening parenthesis. *)
Lemma decode_plain_telegram (first : string) (bodies : list string) (last : string) :
  plain_text first = true -> forallb plain_text bodies = true ->
  plain_text last = true -> re_match_digit last = false ->
  decode_telegram (assemble (map bline (first :: bodies ++ [last])))
  = fold_left store_field (map field_of (filter re_match_digit bodies)) [].
Proof.
  intros Hf Hb Hl Hd. unfold decode_telegram.
  change (first :: bodies ++ [last]) with ((first :: bodies) ++ [last]).
  rewrite py_split_assemble; [|cbn [forallb]; now rewrite Hf, Hb | exact Hl].
  cbn [app prefix_first]. rewrite store_lines_fields.
  cbn [filter String.append re_match_digit].
  change (is_digit "b") with false. cbv iota.
  rewrite filter_app. cbn [filter].
  replace (re_match_digit (last ++ "\r\n'")) with false.
  - now rewrite app_nil_r.
  - destruct last; [reflexivity | symmetry; exact Hd].
Qed.

(** On a telegram of plain lines a code given by several data lines, the
    first line read among them or not, has the payload of the last one. *)
Lemma last_duplicate_plain (first : string) (bodies : list string) (last : string)
  (pre post : list (string * string)) (code payload : string) :
  plain_text first = true -> forallb plain_text bodies = true ->
  plain_text last = true -> re_match_digit last = false ->
  map field_of (filter re_match_digit (first :: bodies))
    = pre ++ (code, payload) :: post ->
  In code (map fst pre) ->
  ~ In code (map fst post) ->
  dict_get code (decode_telegram (assemble (map bline (first :: bodies ++ [last]))))
    = Some payload.
Proof.
  intros Hf Hb Hl Hd Hfields Hdup Hlast.
  rewrite (decode_plain_telegram _ _ _ Hf Hb Hl Hd).
  cbn [filter] in Hfields. destruct (re_match_digit first).
  - destruct pre as [|f pre]; [contradiction|].
    cbn [map app] in Hfields. injection Hfields as _ Hfields.
    rewrite Hfields. now apply store_fields_last.
  - rewrite Hfields. now apply store_fields_last.
Qed.

(** * Further properties of the script *)

(** ** Reading a telegram *)

Lemma read_loop_quiet (pre : list (list byte)) (events : list read_event) (t : string) :
  existsb re_match_bang pre = false ->
  read_loop (map Line pre ++ events) t = read_loop events (t ++ assemble pre).
Proof.
  unfold assemble. revert t. induction pre as [|l pre IH]; intros t H.
  - cbn [map app join fold_right]. now rewrite append_empty_r.
  - cbn [existsb] in H. apply orb_false_iff in H as [Hl Hpre].
    cbn [map app read_loop join fold_right]. rewrite Hl.
    fold (join (map py_str_bytes pre)).
    now rewrite (IH _ Hpre), append_assoc.
Qed.

(** X1.  The lines are appended to the telegram, each as its [str], up to
    the first line that starts with an exclamation mark, this one included;
    what the port holds behind that line is not read in this pass. *)
Theorem X1_reading_stops_at_checksum_line (pre : list (list byte)) (l : list byte)
  (rest : list read_event) (t : string) :
  existsb re_match_bang pre = false ->
  re_match_bang l = true ->
  read_loop (map Line pre ++ Line l :: rest) t
  = ((t ++ assemble (pre ++ [l]))%string, ChecksumFound).
Proof.
  intros Hpre Hl. rewrite (read_loop_quiet _ _ _ Hpre).
  cbn [read_loop]. rewrite Hl. f_equal.
  unfold assemble. rewrite map_app, join_app, append_assoc.
  cbn [map join fold_right]. now rewrite append_empty_r.
Qed.

Lemma X1_reading_stops_at_checksum_line_witness :
  read_loop (map Line [bline "/XMX5LGBBFG1009"; bline "1-0:1.7.0(00.244*kW)"]
               ++ Line (bline "!0000") :: [Line (bline "/XMX5LGBBFG1009")]) ""
  = (("" ++ assemble ([bline "/XMX5LGBBFG1009"; bline "1-0:1.7.0(00.244*kW)"]
                        ++ [bline "!0000"]))%string, ChecksumFound).
Proof.
  apply (X1_reading_stops_at_checksum_line
           [bline "/XMX5LGBBFG1009"; bline "1-0:1.7.0(00.244*kW)"] (bline "!0000")
           [Line (bline "/XMX5LGBBFG1009")] "").
  - reflexivity.
  - reflexivity.
Defined.

Lemma read_loop_no_end (events : list read_event) (t : string) :
  forallb is_quiet_read events = true -> snd (read_loop events t) = NoEnd.
Proof.
  revert t. induction events as [|[l|ex] events IH]; intros t H; [reflexivity| |discriminate H].
  cbn [forallb is_quiet_read] in H. apply andb_prop in H as [Hl Hev].
  apply negb_true_iff in Hl. cbn [read_loop]. rewrite Hl. now apply IH.
Qed.

(** X2.  A pass has no way out of the reading loop but a line that starts
    with an exclamation mark or an exception of [readline]: when the port
    opens and gives neither, however many lines or timeouts it gives, the
    pass, and with it the whole loop, never ends. *)
Theorem X2_no_checksum_line_no_end (fmt : print_format) (iIter : nat)
  (ser : serial_port) (passes : list serial_port) (v : vars) :
  open_raises ser = None ->
  forallb is_quiet_read (readlines ser) = true ->
  main_loop fmt iIter (ser :: passes) v = Loops.
Proof.
  intros Hopen Hquiet. cbn [main_loop]. unfold iteration, capture.
  rewrite Hopen. pose proof (read_loop_no_end _ "" Hquiet) as H.
  destruct (read_loop (readlines ser) "") as [t st]. cbn [snd] in H. now subst st.
Qed.

Lemma X2_no_checksum_line_no_end_witness :
  main_loop fmt_power 0
    [ {| open_raises := None;
         readlines := [Line (bline "/XMX5LGBBFG1009"); Line []; Line (bline "1-0:1.7.0(00.244*kW)")];
         close_raises := None |};
      wrong_checksum_port ] initial_vars = Loops.
Proof.
  apply X2_no_checksum_line_no_end.
  - reflexivity.
  - reflexivity.
Defined.

Lemma repr_byte_printable (b : byte) :
  all_chars printable_char (repr_byte "'" b) = true /\
  all_chars printable_char (repr_byte DQUOTE b) = true.
Proof. destruct b; split; reflexivity. Qed.

Lemma py_str_bytes_printable (bs : list byte) :
  all_chars printable_char (py_str_bytes bs) = true.
Proof.
  unfold py_str_bytes.
  assert (body : forall q, q = "'"%char \/ q = DQUOTE ->
                 all_chars printable_char (join (map (repr_byte q) bs)) = true).
  { intros q Hq. induction bs as [|b bs IH]; [reflexivity|].
    cbn [map join fold_right]. fold (join (map (repr_byte q) bs)).
    rewrite all_chars_app, IH, andb_true_r.
    destruct Hq as [-> | ->]; apply repr_byte_printable. }
  destruct (bytes_quote_cases bs) as [-> | ->]; cbn [all_chars];
    rewrite all_chars_app, body by auto; reflexivity.
Qed.

(** X3.  Whatever bytes the port delivers, the telegram is a text of
    printable ASCII characters: it holds no control character and no
    character above the tilde, the bytes standing in it escaped. *)
Theorem X3_telegram_is_printable (events : list read_event) :
  all_chars printable_char (fst (read_loop events "")) = true.
Proof.
  rewrite read_loop_telegram. unfold assemble.
  induction (lines_read events) as [|l ls IH]; [reflexivity|].
  cbn [map join fold_right]. fold (join (map py_str_bytes ls)).
  now rewrite all_chars_app, py_str_bytes_printable, IH.
Qed.

(** ** The passes of the loop *)

Lemma iteration_values (fmt : print_format) (iIter : nat) (ser : serial_port)
  (v v2 : vars) (r : report) :
  iteration fmt iIter ser v = Done (v2, r) -> is_values r = true.
Proof.
  unfold iteration.
  destruct (capture ser v) as [v1| |]; cbn [bind]; try discriminate.
  destruct (close_port ser); cbn [bind]; try discriminate.
  destruct (look_for_checksum v1) as [v2'| |] eqn:Hl; cbn [bind]; try discriminate.
  destruct (process fmt iIter v2') as [r'| |] eqn:Hp; cbn [bind]; try discriminate.
  intros [= _ <-]. destruct r' as [g c|]; [|reflexivity].
  now apply (process_never_fails_checksum fmt iIter _ _ g c Hl) in Hp.
Qed.

(** X4.  When the loop comes to its end, it has handed out the values of
    one telegram for each pass: no pass is skipped and none reports a failed
    checksum. *)
Theorem X4_one_decoded_telegram_per_pass (fmt : print_format)
  (passes : list serial_port) (reports : list report) :
  main fmt passes = Done reports ->
  List.length reports = List.length passes /\ forallb is_values reports = true.
Proof.
  unfold main. generalize 0 as iIter, initial_vars as v. revert reports.
  induction passes as [|ser passes IH]; intros reports iIter v; cbn [main_loop].
  - intros [= <-]. split; reflexivity.
  - destruct (iteration fmt iIter ser v) as [[v2 r]| |] eqn:Hit; cbn [bind];
      try discriminate.
    destruct (main_loop fmt (S iIter) passes (fst (v2, r))) as [rs| |] eqn:Hrest;
      cbn [bind]; try discriminate.
    intros [= <-]. destruct (IH _ _ _ Hrest) as [Hlen Hall].
    cbn [List.length forallb snd]. rewrite Hlen, Hall, (iteration_values _ _ _ _ _ _ Hit).
    split; reflexivity.
Qed.

Lemma X4_one_decoded_telegram_per_pass_witness :
  List.length [Values [("1-0:1.7.0", "(00.244*kW)"); ("1-0:2.7.0", "(00.000*kW)")]
                 [("1-0:1.7.0", Finite (Qred 0.244)); ("1-0:2.7.0", Finite (Qred 0))]
                 [] [Finite (Qred 0.244); Finite (Qred 0)]]
    = List.length [wrong_checksum_port] /\
  forallb is_values
    [Values [("1-0:1.7.0", "(00.244*kW)"); ("1-0:2.7.0", "(00.000*kW)")]
       [("1-0:1.7.0", Finite (Qred 0.244)); ("1-0:2.7.0", Finite (Qred 0))]
       [] [Finite (Qred 0.244); Finite (Qred 0)]] = true.
Proof.
  apply (X4_one_decoded_telegram_per_pass fmt_power [wrong_checksum_port]).
  vm_compute. reflexivity.
Defined.

(** The report of a pass, and how the pass ends, do not depend on the
    variables it starts with. *)
Lemma iteration_agree (fmt : print_format) (iIter : nat) (ser : serial_port)
  (v v' : vars) :
  match iteration fmt iIter ser v, iteration fmt iIter ser v' with
  | Done vr, Done vr' => snd vr = snd vr'
  | Raised e, Raised e' => e = e'
  | Loops, Loops => True
  | _, _ => False
  end.
Proof.
  unfold iteration, capture.
  destruct (open_raises ser) as [ex|].
  { destruct (is_Exception ex); reflexivity. }
  destruct (read_loop (readlines ser) "") as [t st] eqn:E.
  assert (Ht : t = fst (read_loop (readlines ser) "")) by now rewrite E.
  assert (Hdone : forall w w' : vars,
    telegram w = t -> telegram w' = t ->
    match (_ <- close_port ser ;; v2 <- look_for_checksum w ;;
           r <- process fmt iIter v2 ;; Done (v2, r)),
          (_ <- close_port ser ;; v2 <- look_for_checksum w' ;;
           r <- process fmt iIter v2 ;; Done (v2, r)) with
    | Done vr, Done vr' => snd vr = snd vr'
    | Raised e, Raised e' => e = e'
    | Loops, Loops => True
    | _, _ => False
    end).
  { intros [tw gw iw cw] [tw' gw' iw' cw']. cbn [telegram]. intros -> ->.
    destruct (close_port ser); cbn [bind]; auto.
    rewrite Ht, !look_for_checksum_read. cbn [bind].
    unfold process. cbn [good_checksum negb telegram].
    destruct (clean_readings _); cbn [bind]; auto.
    destruct (table_line _ _ _); cbn [bind]; auto.
    destruct (power_line _ _); cbn [bind]; auto. }
  destruct st as [|ex|]; cbn [bind].
  - now apply Hdone.
  - destruct (is_Exception ex); cbn [bind]; [now apply Hdone | reflexivity].
  - exact I.
Qed.

(** X5.  No pass depends on the passes before it: the outcome of the loop
    is the same whatever the variables (the telegram, the checksum flag and
    the two checksums) hold when it starts. *)
Theorem X5_passes_are_independent (fmt : print_format) (iIter : nat)
  (passes : list serial_port) (v v' : vars) :
  main_loop fmt iIter passes v = main_loop fmt iIter passes v'.
Proof.
  revert iIter v v'. induction passes as [|ser passes IH]; intros iIter v v';
    [reflexivity|].
  cbn [main_loop]. pose proof (iteration_agree fmt iIter ser v v') as H.
  destruct (iteration fmt iIter ser v) as [[v2 r]| |],
           (iteration fmt iIter ser v') as [[v2' r']| |];
    cbn [bind] in *; try contradiction; try congruence.
  cbn [snd] in H. subst r'. cbn [fst snd]. now rewrite (IH _ v2 v2').
Qed.

(** ** The dictionary of a telegram *)

Lemma fold_store_field_map (lines : list string) (d : dict) :
  fold_left store_field (map field_of lines) d
  = fold_left (fun d line => dict_set (before_paren line) (from_paren line) d) lines d.
Proof.
  revert d. induction lines as [|l lines IH]; intros d; [reflexivity|].
  cbn [map fold_left]. apply IH.
Qed.

(** X6.  The dictionary of a telegram is built from the pieces into which
    the separator cuts it, in their order: a piece that starts with a
    decimal digit is stored, the text before its first opening parenthesis
    as the code and the text from this parenthesis on as the value; the
    other pieces are passed over. *)
Theorem X6_decoder_on_pieces (telegram : string) :
  decode_telegram telegram
  = fold_left (fun d line => dict_set (before_paren line) (from_paren line) d)
      (filter re_match_digit (py_split line_separator telegram)) [].
Proof.
  rewrite decode_telegram_fields. unfold fields. apply fold_store_field_map.
Qed.

Lemma dict_set_In (k v a b : string) (d : dict) :
  In (a, b) (dict_set k v d) -> In (a, b) d \/ (a = k /\ b = v).
Proof.
  induction d as [|[k' v'] d IH]; cbn [dict_set In].
  - intros [[= <- <-] | []]. auto.
  - destruct (String.eqb_spec k' k) as [-> | _]; cbn [In].
    + intros [[= <- <-] | H]; auto.
    + intros [E | H]; [auto|]. destruct (IH H) as [H' | H']; auto.
Qed.

Lemma store_fields_In (fs : list (string * string)) (d : dict) (a b : string) :
  In (a, b) (fold_left store_field fs d) -> In (a, b) d \/ In (a, b) fs.
Proof.
  revert d. induction fs as [|[k v] fs IH]; intros d H; [auto|].
  cbn [fold_left] in H. apply IH in H as [H | H]; [|right; right; exact H].
  unfold store_field in H. cbn [fst snd] in H.
  apply dict_set_In in H as [H | [-> ->]]; [auto | right; left; reflexivity].
Qed.

Lemma digit_is_no_paren (c : ascii) : is_digit c = true -> Ascii.eqb c "(" = false.
Proof. each_char c; intros H; first [discriminate H | reflexivity]. Qed.

Lemma from_paren_shape (s : string) :
  from_paren s = "" \/ exists rest, from_paren s = String "(" rest.
Proof.
  induction s as [|c s IH]; [left; reflexivity|]. cbn [from_paren].
  destruct (Ascii.eqb_spec c "(") as [-> | _]; [right; eauto | exact IH].
Qed.

(** X7.  The dictionary holds nothing that the telegram does not: every
    entry comes from a piece of the telegram that starts with a digit, code
    and value together being that piece; the code starts with a digit and
    holds no opening parenthesis, and the value is empty or starts with
    one. *)
Theorem X7_entries_come_from_lines (telegram code value : string) :
  In (code, value) (decode_telegram telegram) ->
  In (code ++ value)%string (py_split line_separator telegram) /\
  re_match_digit code = true /\
  char_in "(" code = false /\
  (value = "" \/ exists rest, value = String "(" rest).
Proof.
  rewrite decode_telegram_fields. intros H.
  apply store_fields_In in H as [[] | H].
  unfold fields in H. apply in_map_iff in H as (line & E & Hline).
  apply filter_In in Hline as [Hin Hdigit].
  unfold field_of in E. injection E as <- <-.
  rewrite before_from_paren. repeat split.
  - exact Hin.
  - destruct line as [|c line]; [discriminate Hdigit|].
    cbn [re_match_digit] in Hdigit. cbn [before_paren].
    now rewrite (digit_is_no_paren c Hdigit).
  - apply before_paren_has_none.
  - apply from_paren_shape.
Qed.

Lemma X7_entries_come_from_lines_witness :
  In ("1-0:2.7.0" ++ "(00.000*kW)")%string
     (py_split line_separator (assemble wrong_checksum_lines)) /\
  re_match_digit "1-0:2.7.0" = true /\
  char_in "(" "1-0:2.7.0" = false /\
  ("(00.000*kW)" = "" \/ exists rest, "(00.000*kW)" = String "(" rest).
Proof.
  apply (X7_entries_come_from_lines (assemble wrong_checksum_lines)).
  right. left. reflexivity.
Defined.

(** X8.  On a telegram of plain lines that ends with a line not starting
    with a digit, as the checksum line, the dictionary is built from the
    lines after the first that start with a digit, each without its CR LF:
    the first line read and the last are never stored. *)
Theorem X8_decoder_on_plain_lines (first : string) (bodies : list string) (last : string) :
  plain_text first = true -> forallb plain_text bodies = true ->
  plain_text last = true -> re_match_digit last = false ->
  decode_telegram (assemble (map bline (first :: bodies ++ [last])))
  = fold_left (fun d line => dict_set (before_paren line) (from_paren line) d)
      (filter re_match_digit bodies) [].
Proof.
  intros Hf Hb Hl Hd.
  rewrite (decode_plain_telegram _ _ _ Hf Hb Hl Hd). apply fold_store_field_map.
Qed.

Lemma X8_decoder_on_plain_lines_witness :
  decode_telegram
    (assemble (map bline ("/XMX5LGBBFG1009"
                 :: ["1-0:1.7.0(00.244*kW)"; ""; "0-0:96.1.1(4B41)"] ++ ["!0000"])))
  = fold_left (fun d line => dict_set (before_paren line) (from_paren line) d)
      (filter re_match_digit ["1-0:1.7.0(00.244*kW)"; ""; "0-0:96.1.1(4B41)"]) [].
Proof.
  apply X8_decoder_on_plain_lines; reflexivity.
Defined.

Lemma no_paren_parts (s : string) :
  char_in "(" s = false -> before_paren s = s /\ from_paren s = "".
Proof.
  induction s as [|c s IH]; [split; reflexivity|].
  cbn [char_in before_paren from_paren]. intros H.
  apply orb_false_iff in H as [Hc Hs]. rewrite Ascii.eqb_sym in Hc.
  rewrite Hc. destruct (IH Hs) as [-> ->]. split; reflexivity.
Qed.

(** X9.  A piece that starts with a digit and holds no opening parenthesis
    is stored whole as the code, with the empty text as its value; when this
    code is a known one, cleaning the values raises [ValueError]. *)
Theorem X9_line_without_parenthesis (telegram_values : dict) (telegram_line : string) :
  re_match_digit telegram_line = true ->
  char_in "(" telegram_line = false ->
  store_line telegram_values telegram_line = dict_set telegram_line "" telegram_values /\
  (known telegram_line = true ->
   clean_readings (store_line telegram_values telegram_line) = Raised ValueError).
Proof.
  intros Hd Hp.
  assert (E : store_line telegram_values telegram_line
              = dict_set telegram_line "" telegram_values).
  { unfold store_line. rewrite Hd.
    destruct (code_and_value telegram_line) as [-> ->].
    now destruct (no_paren_parts _ Hp) as [-> ->]. }
  split; [exact E|]. intros Hk. rewrite E.
  apply (clean_readings_raises _ telegram_line "");
    [apply dict_get_set_same | exact Hk | reflexivity].
Qed.

Lemma X9_line_without_parenthesis_witness :
  store_line [("1-0:2.7.0", "(00.000*kW)")] "1-0:1.7.0"
    = dict_set "1-0:1.7.0" "" [("1-0:2.7.0", "(00.000*kW)")] /\
  (known "1-0:1.7.0" = true ->
   clean_readings (store_line [("1-0:2.7.0", "(00.000*kW)")] "1-0:1.7.0")
     = Raised ValueError).
Proof.
  apply X9_line_without_parenthesis; reflexivity.
Defined.

Lemma starts_with_app (p s : string) :
  starts_with p s = true -> exists r, s = (p ++ r)%string.
Proof.
  revert s. induction p as [|a p IH]; intros s H; [exists s; reflexivity|].
  destruct s as [|c s]; [discriminate H|].
  cbn [starts_with] in H. apply andb_prop in H as [Hc Hs].
  apply Ascii.eqb_eq in Hc. subst c.
  destruct (IH _ Hs) as (r & ->). exists r. reflexivity.
Qed.

Lemma split_from_skip (sep p s : string) (cur : list ascii) :
  split_from sep (String.length p) cur (p ++ s) = split_from sep 0 cur s.
Proof. induction p as [|c p IH]; [reflexivity | exact IH]. Qed.

Lemma length_app (s t : string) :
  String.length (s ++ t) = String.length s + String.length t.
Proof. induction s as [|c s IH]; cbn [String.append String.length]; [reflexivity | now rewrite IH]. Qed.

Lemma concat_split_from (sep : string) (n : nat) :
  sep <> "" ->
  forall (s : string) (cur : list ascii),
    String.length s <= n ->
    String.concat sep (split_from sep 0 cur s)
    = (string_of_list_ascii (rev cur) ++ s)%string.
Proof.
  intros Hsep. induction n as [|n IH]; intros s cur Hlen.
  - destruct s; [|cbn [String.length] in Hlen; lia].
    cbn [split_from String.concat]. now rewrite append_empty_r.
  - destruct s as [|c s].
    { cbn [split_from String.concat]. now rewrite append_empty_r. }
    cbn [String.length] in Hlen. cbn [split_from].
    destruct (starts_with sep (String c s)) eqn:E.
    + destruct sep as [|a sep]; [contradiction|].
      apply starts_with_app in E as (r & E).
      cbn [String.append] in E. injection E as <- ->.
      replace (String.length (String c sep) - 1) with (String.length sep)
        by (cbn [String.length]; lia).
      rewrite split_from_skip.
      destruct (split_from_first (String c sep) r 0 []) as (p & ps & Hps).
      rewrite Hps, <- Hps. cbn [String.concat].
      rewrite Hps at 1. rewrite IH by (rewrite length_app in Hlen; lia).
      reflexivity.
    + rewrite IH by lia. cbn [rev]. rewrite string_of_app, append_assoc.
      reflexivity.
Qed.

(** X10.  Cutting the telegram at the separator loses no character: the
    pieces, joined again with the separator between them, are the
    telegram. *)
Theorem X10_pieces_give_back_the_telegram (telegram : string) :
  String.concat line_separator (py_split line_separator telegram) = telegram.
Proof.
  unfold py_split.
  apply (concat_split_from line_separator (String.length telegram));
    [discriminate | apply Nat.le_refl].
Qed.

(** ** Assignment to the dictionary *)

Lemma dict_keys_set_order (k v : string) (d : dict) :
  dict_keys (dict_set k v d)
  = if dict_has k d then dict_keys d else dict_keys d ++ [k].
Proof.
  unfold dict_has, dict_keys. induction d as [|[k' v'] d IH]; [reflexivity|].
  cbn [dict_set map fst existsb].
  rewrite (String.eqb_sym k k').
  destruct (String.eqb k' k); cbn [orb map fst]; [reflexivity|].
  rewrite IH. destruct (existsb (String.eqb k) (map fst d)); reflexivity.
Qed.

(** X11.  Assigning a value to a code makes the dictionary give this value
    for the code and changes the value of no other code.  A code already
    present keeps its place among the keys; a new code is put behind the
    last. *)
Theorem X11_assignment_to_a_code (k v : string) (d : dict) :
  dict_get k (dict_set k v d) = Some v /\
  (forall k', k' <> k -> dict_get k' (dict_set k v d) = dict_get k' d) /\
  dict_keys (dict_set k v d)
  = (if dict_has k d then dict_keys d else dict_keys d ++ [k]).
Proof.
  split; [apply dict_get_set_same|]. split; [|apply dict_keys_set_order].
  intros k' Hk. now apply dict_get_set_other.
Qed.

Lemma X11_assignment_to_a_code_witness :
  dict_get "1-0:2.7.0" (dict_set "1-0:1.7.0" "(00.300*kW)"
                          [("1-0:1.7.0", "(00.244*kW)"); ("1-0:2.7.0", "(00.000*kW)")])
  = dict_get "1-0:2.7.0" [("1-0:1.7.0", "(00.244*kW)"); ("1-0:2.7.0", "(00.000*kW)")].
Proof.
  apply (proj1 (proj2 (X11_assignment_to_a_code "1-0:1.7.0" "(00.300*kW)"
                         [("1-0:1.7.0", "(00.244*kW)"); ("1-0:2.7.0", "(00.000*kW)")]))).
  discriminate.
Defined.

(** ** The order of the items *)

Lemma ascii_compare_lt_trans (a b c : ascii) :
  Ascii.compare a b = Lt -> Ascii.compare b c = Lt -> Ascii.compare a c = Lt.
Proof.
  unfold Ascii.compare. rewrite !N.compare_lt_iff. apply N.lt_trans.
Qed.

Lemma string_compare_lt_trans (a b c : string) :
  String.compare a b = Lt -> String.compare b c = Lt -> String.compare a c = Lt.
Proof.
  revert b c. induction a as [|x a IH]; intros [|y b] [|z c]; cbn [String.compare];
    try discriminate; try reflexivity.
  destruct (Ascii.compare x y) eqn:Exy; try discriminate;
    destruct (Ascii.compare y z) eqn:Eyz; try discriminate; intros H1 H2.
  - apply Ascii.compare_eq_iff in Exy, Eyz. subst y z.
    replace (Ascii.compare x x) with Eq
      by (symmetry; unfold Ascii.compare; apply N.compare_refl).
    now apply (IH b c).
  - apply Ascii.compare_eq_iff in Exy. subst y. now rewrite Eyz.
  - apply Ascii.compare_eq_iff in Eyz. subst z. now rewrite Exy.
  - now rewrite (ascii_compare_lt_trans x y z Exy Eyz).
Qed.

Lemma string_ltb_lt (a b : string) : String.ltb a b = true <-> String.compare a b = Lt.
Proof. unfold String.ltb. destruct (String.compare a b); split; congruence. Qed.

Lemma string_compare_refl (a : string) : String.compare a a = Eq.
Proof.
  induction a as [|x a IH]; cbn [String.compare]; [reflexivity|].
  unfold Ascii.compare. now rewrite N.compare_refl.
Qed.

Lemma string_ltb_irrefl (a : string) : String.ltb a a = false.
Proof. unfold String.ltb. now rewrite string_compare_refl. Qed.

Lemma string_trichotomy (a b : string) :
  String.ltb a b = true \/ a = b \/ String.ltb b a = true.
Proof.
  unfold String.ltb. destruct (String.compare a b) eqn:E.
  - right. left. now apply String.compare_eq_iff.
  - left. reflexivity.
  - right. right. now rewrite String.compare_antisym, E.
Qed.

Lemma string_ltb_trans (a b c : string) :
  String.ltb a b = true -> String.ltb b c = true -> String.ltb a c = true.
Proof. rewrite !string_ltb_lt. apply string_compare_lt_trans. Qed.

Lemma item_ltb_iff (x y : string * string) :
  item_ltb x y = true <->
  String.ltb (fst x) (fst y) = true \/ (fst x = fst y /\ String.ltb (snd x) (snd y) = true).
Proof.
  unfold item_ltb. rewrite orb_true_iff, andb_true_iff, String.eqb_eq. tauto.
Qed.

Lemma item_ltb_irrefl (x : string * string) : item_ltb x x = false.
Proof.
  unfold item_ltb. now rewrite !string_ltb_irrefl, andb_false_r.
Qed.

Lemma item_ltb_trans (x y z : string * string) :
  item_ltb x y = true -> item_ltb y z = true -> item_ltb x z = true.
Proof.
  rewrite !item_ltb_iff. intros [H1 | [E1 H1]] [H2 | [E2 H2]].
  - left. eapply string_ltb_trans; eassumption.
  - left. now rewrite <- E2.
  - left. now rewrite E1.
  - right. split; [congruence | eapply string_ltb_trans; eassumption].
Qed.

Lemma item_trichotomy (x y : string * string) :
  item_ltb x y = true \/ x = y \/ item_ltb y x = true.
Proof.
  rewrite !item_ltb_iff. destruct x as [a b], y as [c d]. cbn [fst snd].
  destruct (string_trichotomy a c) as [H | [-> | H]]; auto.
  destruct (string_trichotomy b d) as [H | [-> | H]]; auto.
Qed.

Lemma item_le_trans (x y z : string * string) :
  item_le x y -> item_le y z -> item_le x z.
Proof.
  unfold item_le. intros Hxy Hyz.
  destruct (item_ltb z x) eqn:Hzx; [|reflexivity].
  destruct (item_trichotomy x y) as [H | [-> | H]]; [| congruence | congruence].
  now rewrite (item_ltb_trans z x y Hzx H) in Hyz.
Qed.

Lemma sorted_insert_perm (x : string * string) (l : list (string * string)) :
  Permutation (x :: l) (sorted_insert x l).
Proof.
  induction l as [|y l IH]; cbn [sorted_insert]; [reflexivity|].
  destruct (item_ltb y x); [|reflexivity].
  rewrite perm_swap. now constructor.
Qed.

Lemma item_ltb_asym (x y : string * string) :
  item_ltb y x = true -> item_le y x.
Proof.
  unfold item_le. intros H. destruct (item_ltb x y) eqn:E; [|reflexivity].
  pose proof (item_ltb_trans x y x E H) as F.
  now rewrite item_ltb_irrefl in F.
Qed.

Lemma sorted_insert_head (x y : string * string) (l : list (string * string)) :
  item_le y x -> HdRel item_le y l -> HdRel item_le y (sorted_insert x l).
Proof.
  intros Hx Hl. destruct l as [|z l]; cbn [sorted_insert]; [now constructor|].
  inversion Hl; subst. destruct (item_ltb z x); now constructor.
Qed.

Lemma sorted_insert_sorted (x : string * string) (l : list (string * string)) :
  Sorted item_le l -> Sorted item_le (sorted_insert x l).
Proof.
  induction l as [|y l IH]; cbn [sorted_insert]; intros H.
  - repeat constructor.
  - inversion H as [|? ? Hl Hhd]; subst.
    destruct (item_ltb y x) eqn:E.
    + constructor; [now apply IH|].
      apply sorted_insert_head; [now apply item_ltb_asym | exact Hhd].
    + constructor; [exact H|]. constructor. exact E.
Qed.

(** X12.  The items of the dictionary are gone through in ascending order,
    by code and for equal codes by value: [sorted] puts every item before
    all items that are not smaller, and it neither loses nor repeats an
    item. *)
Theorem X12_items_in_ascending_order (l : list (string * string)) :
  Permutation l (sorted l) /\ StronglySorted item_le (sorted l).
Proof.
  split.
  - induction l as [|x l IH]; cbn [sorted fold_right]; [constructor|].
    fold (sorted l). rewrite <- sorted_insert_perm. now constructor.
  - apply Sorted_StronglySorted; [exact item_le_trans|].
    induction l as [|x l IH]; cbn [sorted fold_right]; [constructor|].
    fold (sorted l). now apply sorted_insert_sorted.
Qed.

(** ** The cleaned values *)

Lemma readings_from (items : list (string * string))
  (acc readings : list (string * pyfloat)) :
  for_each reading_body items acc = Done readings ->
  exists more,
    readings = acc ++ more /\
    map fst more = filter known (map fst items) /\
    forall code x, In (code, x) more ->
      exists raw, In (code, raw) items /\ clean_value raw = Done x.
Proof.
  revert acc. induction items as [|[c r] items IH]; intros acc; cbn [for_each].
  - intros [= <-]. exists []. rewrite app_nil_r. repeat split. intros ? ? [].
  - unfold reading_body at 1. cbn [map fst filter]. unfold known at 1.
    destruct (dict_has c list_of_interesting_codes); cbn [bind].
    + destruct (clean_value r) as [x| |] eqn:E; cbn [bind]; try discriminate.
      intros H. destruct (IH _ H) as (more & -> & Hk & Hv).
      exists ((c, x) :: more). rewrite <- app_assoc. cbn [app map fst].
      repeat split; [now rewrite Hk|].
      intros code y [[= <- <-] | Hin].
      * exists r. split; [left; reflexivity | exact E].
      * destruct (Hv _ _ Hin) as (raw & Hraw & Hc). exists raw. split; [right|]; assumption.
    + intros H. destruct (IH _ H) as (more & -> & Hk & Hv).
      exists more. repeat split; [exact Hk|].
      intros code y Hin. destruct (Hv _ _ Hin) as (raw & Hraw & Hc).
      exists raw. split; [right|]; assumption.
Qed.

(** X13.  When the values are cleaned without an exception, the readings
    are those of the known codes of the dictionary, in the ascending order
    of the sorted items, each code with the number cleaned from its value;
    the codes outside the list appear in no reading. *)
Theorem X13_readings_of_the_known_codes (telegram_values : dict)
  (readings : list (string * pyfloat)) :
  clean_readings telegram_values = Done readings ->
  map fst readings = filter known (map fst (sorted telegram_values)) /\
  forall code x, In (code, x) readings ->
    known code = true /\
    exists raw, In (code, raw) telegram_values /\ clean_value raw = Done x.
Proof.
  unfold clean_readings. intros H.
  destruct (readings_from _ _ _ H) as (more & -> & Hk & Hv). cbn [app].
  split; [exact Hk|]. intros code x Hin. split.
  - assert (Hc : In code (map fst more)) by (apply in_map_iff; exists (code, x); auto).
    rewrite Hk in Hc. now apply filter_In in Hc.
  - destruct (Hv _ _ Hin) as (raw & Hraw & Hc). exists raw.
    split; [now apply sorted_In | exact Hc].
Qed.

Lemma X13_readings_of_the_known_codes_witness :
  map fst [("1-0:1.7.0", Finite (Qred 0.244))]
  = filter known (map fst (sorted [("1-0:1.7.0", "(00.244*kW)"); ("0-0:96.1.1", "(4B41)")])).
Proof.
  apply (X13_readings_of_the_known_codes
           [("1-0:1.7.0", "(00.244*kW)"); ("0-0:96.1.1", "(4B41)")]
           [("1-0:1.7.0", Finite (Qred 0.244))]).
  vm_compute. reflexivity.
Defined.

Lemma readings_done (items : list (string * string)) (acc : list (string * pyfloat)) :
  (forall code raw, In (code, raw) items -> known code = true ->
     exists x, clean_value raw = Done x) ->
  exists readings, for_each reading_body items acc = Done readings.
Proof.
  revert acc. induction items as [|[c r] items IH]; intros acc H; cbn [for_each].
  - eauto.
  - unfold reading_body at 1.
    destruct (dict_has c list_of_interesting_codes) eqn:Hc; cbn [bind].
    + destruct (H c r (or_introl eq_refl) Hc) as (x & ->). cbn [bind].
      apply IH. intros code raw Hin. apply H. now right.
    + apply IH. intros code raw Hin. apply H. now right.
Qed.

(** X14.  Cleaning the values ends without an exception exactly when the
    value of every known code of the dictionary can be cleaned: what the
    values of the other codes are has no bearing on it. *)
Theorem X14_only_known_codes_are_cleaned (telegram_values : dict) :
  (exists readings, clean_readings telegram_values = Done readings) <->
  (forall code raw, In (code, raw) telegram_values -> known code = true ->
     exists x, clean_value raw = Done x).
Proof.
  split.
  - intros (readings & H) code raw Hin Hk.
    destruct (clean_value_outcome raw) as [Hx | Hraw]; [exact Hx|].
    unfold clean_readings in H.
    rewrite (clean_readings_from _ code raw [] (proj2 (sorted_In _ _) Hin) Hk Hraw) in H.
    discriminate H.
  - intros H. apply readings_done. intros code raw Hin. apply H.
    now apply sorted_In.
Qed.

Lemma X14_only_known_codes_are_cleaned_witness :
  exists readings,
    clean_readings [("1-0:1.7.0", "(00.244*kW)"); ("0-0:96.1.1", "(4B41)")]
    = Done readings.
Proof.
  apply (proj2 (X14_only_known_codes_are_cleaned
                  [("1-0:1.7.0", "(00.244*kW)"); ("0-0:96.1.1", "(4B41)")])).
  intros code raw [[= <- <-] | [[= <- <-] | []]] Hk.
  - eexists. vm_compute. reflexivity.
  - discriminate Hk.
Defined.

(** ** How a pass can fail *)

Lemma clean_items_raises (d : dict) (codes : list string) (e : exn) :
  clean_items d codes = Raised e ->
  e = ValueError \/ exists k, e = KeyError k /\ In k codes.
Proof.
  induction codes as [|k codes IH]; cbn [clean_items]; [discriminate|].
  unfold dict_item. destruct (dict_get k d) as [raw|]; cbn [bind].
  - destruct (clean_value_outcome raw) as [[x ->] | ->]; cbn [bind].
    + destruct (clean_items d codes) as [xs| e' |]; cbn [bind]; try discriminate.
      intros [= <-]. destruct (IH eq_refl) as [H | (k' & H & Hin)]; [auto|].
      right. exists k'. split; [exact H | now right].
    + intros [= <-]. auto.
  - intros [= <-]. right. exists k. split; [reflexivity | now left].
Qed.

Lemma reading_loop_raises (items : list (string * string))
  (acc : list (string * pyfloat)) (e : exn) :
  for_each reading_body items acc = Raised e -> e = ValueError.
Proof.
  revert acc. induction items as [|[c r] items IH]; intros acc; cbn [for_each];
    [discriminate|].
  unfold reading_body at 1. destruct (dict_has c list_of_interesting_codes); cbn [bind].
  - destruct (clean_value_outcome r) as [[x ->] | ->]; cbn [bind]; [apply IH|].
    now intros [= <-].
  - apply IH.
Qed.

Lemma clean_item_raises (d : dict) (code : string) (e : exn) :
  clean_item d code = Raised e -> e = ValueError \/ e = KeyError code.
Proof.
  unfold clean_item, dict_item. destruct (dict_get code d) as [raw|]; cbn [bind].
  - destruct (clean_value_outcome raw) as [[x ->] | ->]; [discriminate|].
    intros [= <-]. now left.
  - intros [= <-]. now right.
Qed.

Lemma format_i_raises (x : pyfloat) (e : exn) :
  format_i x = Raised e -> e = ValueError \/ e = OverflowError.
Proof. destruct x; cbn [format_i]; intros [= <-]; auto. Qed.

(** The end of a printed line: the two powers and the conversion of the
    net power. *)
Lemma net_power_raises (d : dict) (before : list pyfloat) (e : exn) :
  (x <- clean_item d "1-0:1.7.0" ;; y <- clean_item d "1-0:2.7.0" ;;
   _ <- format_i (net_watts x y) ;; Done (before ++ [x; y])) = Raised e ->
  e = ValueError \/ (exists k, e = KeyError k /\ In k printed_codes)
  \/ e = OverflowError.
Proof.
  assert (Hkey : forall code, In code printed_codes ->
            forall e', e' = ValueError \/ e' = KeyError code ->
            e' = ValueError \/ (exists k, e' = KeyError k /\ In k printed_codes)
            \/ e' = OverflowError).
  { intros code Hin e' [-> | ->]; [auto|]. right. left. eauto. }
  destruct (clean_item d "1-0:1.7.0") as [x| e1 |] eqn:E1; cbn [bind]; try discriminate.
  2:{ intros [= <-]. apply (Hkey "1-0:1.7.0"); [cbn; tauto|].
      exact (clean_item_raises _ _ _ E1). }
  destruct (clean_item d "1-0:2.7.0") as [y| e2 |] eqn:E2; cbn [bind]; try discriminate.
  2:{ intros [= <-]. apply (Hkey "1-0:2.7.0"); [cbn; tauto|].
      exact (clean_item_raises _ _ _ E2). }
  destruct (format_i (net_watts x y)) as [u| e3 |] eqn:E3; cbn [bind]; try discriminate.
  intros [= <-]. destruct (format_i_raises _ _ E3) as [-> | ->]; auto.
Qed.

Lemma process_raises (fmt : print_format) (iIter : nat) (v : vars) (e : exn) :
  good_checksum v = true ->
  process fmt iIter v = Raised e ->
  e = ValueError \/ (exists k, e = KeyError k /\ In k printed_codes)
  \/ e = OverflowError.
Proof.
  intros Hg. unfold process. rewrite Hg. cbn [negb].
  destruct (clean_readings _) as [rs| e' |] eqn:Hr; cbn [bind]; try discriminate.
  2:{ intros [= <-]. left. exact (reading_loop_raises _ _ _ Hr). }
  destruct (table_line _ _ _) as [tb| e' |] eqn:Ht; cbn [bind]; try discriminate.
  2:{ intros [= <-]. unfold table_line, dailyLine in Ht.
      destruct (_ || _); [|discriminate Ht].
      destruct (clean_items _ _) as [energies| e1 |] eqn:E1; cbn [bind] in Ht;
        try discriminate Ht.
      - exact (net_power_raises _ _ _ Ht).
      - injection Ht as <-.
        destruct (clean_items_raises _ _ _ E1) as [H | (k & H & Hin)]; [auto|].
        right. left. exists k. split; [exact H|].
        cbn [In] in Hin. unfold printed_codes. cbn [In]. tauto. }
  destruct (power_line _ _) as [pw| e' |] eqn:Hp; cbn [bind]; try discriminate.
  intros [= <-]. unfold power_line in Hp.
  destruct (_ || _); [|discriminate Hp].
  exact (net_power_raises _ [] _ Hp).
Qed.

Lemma iteration_raises (fmt : print_format) (iIter : nat) (ser : serial_port)
  (v : vars) (e : exn) :
  iteration fmt iIter ser v = Raised e ->
  e = ValueError \/ (exists k, e = KeyError k /\ In k printed_codes)
  \/ e = OverflowError \/ is_Exception e = false.
Proof.
  unfold iteration.
  destruct (capture ser v) as [v1| e' |] eqn:Hc; cbn [bind]; try discriminate.
  2:{ intros [= <-]. right. right. right. unfold capture in Hc.
      destruct (open_raises ser) as [ex|].
      - destruct (is_Exception ex) eqn:Hex; injection Hc as <-; [reflexivity | exact Hex].
      - destruct (read_loop (readlines ser) "") as [t [ | ex | ]]; try discriminate Hc.
        destruct (is_Exception ex) eqn:Hex; [discriminate Hc|].
        now injection Hc as <-. }
  destruct (close_port ser) as [u| e' |] eqn:Hcl; cbn [bind]; try discriminate.
  2:{ intros [= <-]. right. right. right. unfold close_port in Hcl.
      destruct (close_raises ser) as [[ex text]|]; [|discriminate Hcl].
      destruct (is_Exception ex) eqn:Hex; injection Hcl as <-; [reflexivity | exact Hex]. }
  rewrite (look_for_checksum_captured _ _ _ Hc). cbn [bind].
  destruct (process fmt iIter _) as [r| e' |] eqn:Hp; cbn [bind]; try discriminate.
  intros [= <-]. apply process_raises in Hp; [tauto | reflexivity].
Qed.

(** X15.  The loop ends with an exception in four ways only: with the
    [ValueError] of a value that cannot be cleaned or of a net power that
    is no number, with the [KeyError] of one of the six printed codes
    missing from the dictionary, with the [OverflowError] of an infinite
    net power, or with an exception outside the class [Exception], as the
    [SystemExit] of [sys.exit].  It never ends with another exception of
    the script itself. *)
Theorem X15_how_the_loop_can_fail (fmt : print_format) (iIter : nat)
  (passes : list serial_port) (v : vars) (e : exn) :
  main_loop fmt iIter passes v = Raised e ->
  e = ValueError \/ (exists k, e = KeyError k /\ In k printed_codes)
  \/ e = OverflowError \/ is_Exception e = false.
Proof.
  revert iIter v. induction passes as [|ser passes IH]; intros iIter v;
    cbn [main_loop]; [discriminate|].
  destruct (iteration fmt iIter ser v) as [vr| e' |] eqn:Hit; cbn [bind];
    try discriminate.
  - destruct (main_loop fmt (S iIter) passes (fst vr)) as [rs| e' |] eqn:Hrest;
      cbn [bind]; try discriminate.
    intros [= <-]. exact (IH _ _ Hrest).
  - intros [= <-]. exact (iteration_raises _ _ _ _ _ Hit).
Qed.

Lemma X15_how_the_loop_can_fail_witness :
  OverflowError = ValueError
  \/ (exists k, OverflowError = KeyError k /\ In k printed_codes)
  \/ OverflowError = OverflowError \/ is_Exception OverflowError = false.
Proof.
  apply (X15_how_the_loop_can_fail fmt_power 0 [infinite_power_port] initial_vars).
  vm_compute. reflexivity.
Defined.

(** X16.  In the power format, the default, a pass whose telegram lacks the
    code 1-0:1.7.0, the values of the known codes being cleaned without an
    exception, ends the loop with the [KeyError] of this code; so does,
    with the code 1-0:2.7.0, a telegram that has the first code with a
    value that can be cleaned and lacks the second. *)
Theorem X16_missing_power_code (iIter : nat) (ser : serial_port)
  (passes : list serial_port) (v v1 : vars) (readings : list (string * pyfloat)) :
  capture ser v = Done v1 ->
  close_raises ser = None ->
  clean_readings (decode_telegram (telegram v1)) = Done readings ->
  (dict_get "1-0:1.7.0" (decode_telegram (telegram v1)) = None ->
   main_loop fmt_power iIter (ser :: passes) v = Raised (KeyError "1-0:1.7.0")) /\
  (forall raw x,
   dict_get "1-0:1.7.0" (decode_telegram (telegram v1)) = Some raw ->
   clean_value raw = Done x ->
   dict_get "1-0:2.7.0" (decode_telegram (telegram v1)) = None ->
   main_loop fmt_power iIter (ser :: passes) v = Raised (KeyError "1-0:2.7.0")).
Proof.
  intros Hcap Hclose Hread.
  assert (E : main_loop fmt_power iIter (ser :: passes) v
              = (vr <- (r <- (power <- power_line fmt_power (decode_telegram (telegram v1)) ;;
                              Done (Values (decode_telegram (telegram v1)) readings [] power)) ;;
                        Done ({| telegram := telegram v1; good_checksum := true;
                                 given_checksum := given_checksum v1;
                                 calculated_checksum := calculated_checksum v1 |}, r)) ;;
                 rs <- main_loop fmt_power (S iIter) passes (fst vr) ;;
                 Done (snd vr :: rs))).
  { cbn [main_loop]. unfold iteration, close_port. rewrite Hcap, Hclose. cbn [bind].
    rewrite (look_for_checksum_captured _ _ _ Hcap). cbn [bind].
    unfold process. cbn [good_checksum negb telegram]. rewrite Hread. reflexivity. }
  rewrite E. unfold power_line. cbn [print_format_eqb orb].
  unfold clean_item, dict_item. split.
  - intros ->. reflexivity.
  - intros raw x H1 H2 H3. rewrite H1. cbn [bind]. rewrite H2. cbn [bind].
    now rewrite H3.
Qed.

Lemma X16_missing_power_code_witness :
  main_loop fmt_power 0 [data_first_port] initial_vars = Raised (KeyError "1-0:1.7.0").
Proof.
  apply (proj1 (X16_missing_power_code 0 data_first_port [] initial_vars
                  {| telegram := fst (read_loop (readlines data_first_port) "");
                     good_checksum := false; given_checksum := None;
                     calculated_checksum := None |}
                  [("1-0:2.7.0", Finite (Qred 0))] eq_refl eq_refl eq_refl)).
  reflexivity.
Defined.

(** ** What [clean_value] strips *)

Section StripParts.

Variable chars : string.






Lemma rstrip_app_last (s : string) (c : ascii) :
  char_in c chars = false -> rstrip chars (s ++ String c "") = (s ++ String c "")%string.
Proof.
  intros Hc. induction s as [|d s IH]; cbn [String.append rstrip].
  - now rewrite Hc.
  - rewrite IH. now destruct s.
Qed.

Lemma lstrip_app_last (s : string) (c : ascii) :
  char_in c chars = false ->
  exists u, lstrip chars (s ++ String c "") = (u ++ String c "")%string.
Proof.
  intros Hc. induction s as [|d s IH]; cbn [String.append lstrip].
  - rewrite Hc. exists "". reflexivity.
  - destruct (char_in d chars); [exact IH|]. exists (String d s). reflexivity.
Qed.

End StripParts.





(** X18.  On a payload made of a time stamp group and a group with a
    numeric text and the tag of cubic metres, the gas path gives the number
    read from the numeric text without its final digits 3, whatever the
    time stamp. *)
Theorem X18_gas_value (time num : string) :
  all_chars group_char time = true ->
  numeric_text num = true ->
  clean_value ("(" ++ time ++ ")(" ++ num ++ "*m3)") = py_float (rstrip "3" num).
Proof. apply clean_value_gas. Qed.

Lemma X18_gas_value_witness :
  clean_value ("(" ++ "200102151415S" ++ ")(" ++ "00012.330" ++ "*m3)")
  = py_float (rstrip "3" "00012.330").
Proof.
  apply (X18_gas_value "200102151415S" "00012.330"); reflexivity.
Defined.

(** ** The characters of a number *)

Section CharsKept.

Variable P : ascii -> bool.

Lemma space_left_chars (s : string) :
  (forall c, is_space c = true -> P c = true) ->
  all_chars P (space_left s) = true -> all_chars P s = true.
Proof.
  intros HP. induction s as [|c s IH]; [auto|]. cbn [space_left].
  destruct (is_space c) eqn:E; [|auto].
  intros H. cbn [all_chars]. now rewrite (HP c E), IH.
Qed.

Lemma space_right_chars (s : string) :
  (forall c, is_space c = true -> P c = true) ->
  all_chars P (space_right s) = true -> all_chars P s = true.
Proof.
  intros HP. induction s as [|c s IH]; [auto|]. cbn [space_right].
  destruct (space_right s) as [|d t] eqn:E.
  - intros H. cbn [all_chars]. rewrite IH by reflexivity. rewrite andb_true_r.
    destruct (is_space c) eqn:Ec; [now apply HP|].
    cbn [all_chars] in H. now apply andb_prop in H as [H _].
  - intros H. cbn [all_chars] in H |- *. apply andb_prop in H as [Hc Ht].
    now rewrite Hc, IH.
Qed.

Lemma drop_underscores_chars (s : string) (prev : ascii) (t : string) :
  P "_"%char = true ->
  drop_underscores prev s = Some t -> all_chars P t = true -> all_chars P s = true.
Proof.
  intros HP. revert prev t. induction s as [|c s IH]; intros prev t;
    cbn [drop_underscores]; [reflexivity|].
  destruct (Ascii.eqb_spec c "_") as [-> | _].
  - destruct (is_digit prev); [|discriminate]. intros H Ht.
    cbn [all_chars]. now rewrite HP, (IH _ _ H Ht).
  - destruct (Ascii.eqb prev "_" && negb (is_digit c)); [discriminate|].
    destruct (drop_underscores c s) as [r|] eqn:E; [|discriminate].
    intros [= <-] Ht. cbn [all_chars] in Ht |- *.
    apply andb_prop in Ht as [Hc Hr]. now rewrite Hc, (IH _ _ E Hr).
Qed.

Lemma read_digits_chars (s : string) (acc : N) (n : nat) (m : N) (k : nat)
  (rest : string) :
  (forall c, is_digit c = true -> P c = true) ->
  read_digits acc n s = (m, k, rest) -> all_chars P rest = true ->
  all_chars P s = true.
Proof.
  intros HP. revert acc n. induction s as [|c s IH]; intros acc n;
    cbn [read_digits].
  - now intros [= _ _ <-].
  - destruct (is_digit c) eqn:E.
    + intros H Hr. cbn [all_chars]. now rewrite (HP c E), (IH _ _ H Hr).
    + now intros [= _ _ <-].
Qed.

Lemma lower_str_chars (s : string) :
  all_chars P (lower_str s) = all_chars (fun c => P (lower c)) s.
Proof. induction s as [|c s IH]; cbn [lower_str all_chars]; congruence. Qed.

End CharsKept.

Lemma read_sign_cases (t : string) :
  read_sign t = (false, t)
  \/ (exists s, t = String "-" s /\ read_sign t = (true, s))
  \/ (exists s, t = String "+" s /\ read_sign t = (false, s)).
Proof.
  destruct t as [|c s]; [left; reflexivity|].
  destruct c as [[] [] [] [] [] [] [] []];
    first [ left; reflexivity
          | right; left; eexists; split; reflexivity
          | right; right; eexists; split; reflexivity ].
Qed.

Lemma read_sign_chars (P : ascii -> bool) (t : string) (neg : bool) (body : string) :
  P "-"%char = true -> P "+"%char = true ->
  read_sign t = (neg, body) -> all_chars P body = true -> all_chars P t = true.
Proof.
  intros Hm Hp.
  destruct (read_sign_cases t) as [-> | [(s & -> & ->) | (s & -> & ->)]];
    intros [= _ <-] H; cbn [all_chars]; [exact H | now rewrite Hm | now rewrite Hp].
Qed.

Lemma float_char_facts :
  (forall c, is_space c = true -> float_char c = true) /\
  (forall c, is_digit c = true -> float_char c = true) /\
  (forall c, char_in (lower c) "einftya" = true -> float_char c = true) /\
  float_char "_" = true /\ float_char "-" = true /\ float_char "+" = true /\
  float_char "." = true.
Proof.
  unfold float_char. repeat split; try reflexivity; intros c H; rewrite H;
    rewrite ?orb_true_r; reflexivity.
Qed.

Lemma word_chars (body word : string) :
  all_chars (fun c => char_in c "einftya") word = true ->
  String.eqb (lower_str body) word = true ->
  all_chars float_char body = true.
Proof.
  intros Hw E. apply String.eqb_eq in E. rewrite <- E, lower_str_chars in Hw.
  revert Hw. apply all_chars_weaken. apply float_char_facts.
Qed.

Lemma after_point_chars (int_part : N) (s : string) (m : N) (k : nat) (rest : string) :
  after_point int_part s = (m, k, rest) ->
  all_chars float_char rest = true -> all_chars float_char s = true.
Proof.
  destruct float_char_facts as (_ & Hd & _ & _ & _ & _ & Hpt).
  destruct s as [|c s]; [now intros [= _ _ <-]|].
  destruct c as [[] [] [] [] [] [] [] []]; cbn [after_point];
    first [ now intros [= _ _ <-]
          | intros H Hr; cbn [all_chars]; rewrite (read_digits_chars _ _ _ _ _ _ _ Hd H Hr);
            reflexivity ].
Qed.

Lemma read_exponent_chars (s : string) (e : Z) :
  read_exponent s = Some e -> all_chars float_char s = true.
Proof.
  destruct float_char_facts as (_ & Hd & Hw & _ & Hm & Hp & _).
  destruct s as [|c s]; [reflexivity|]. cbn [read_exponent].
  destruct (Ascii.eqb (lower c) "e") eqn:Ec; [|discriminate].
  assert (Hc : float_char c = true).
  { apply Hw. apply Ascii.eqb_eq in Ec. now rewrite Ec. }
  destruct (read_sign s) as [neg s1] eqn:Es.
  destruct (read_digits 0 0 s1) as [[x k] rest] eqn:Er.
  destruct k as [|k]; [discriminate|]. destruct rest; [|discriminate].
  intros _. cbn [all_chars]. rewrite Hc.
  apply (read_sign_chars _ _ _ _ Hm Hp Es).
  exact (read_digits_chars _ _ _ _ _ _ _ Hd Er eq_refl).
Qed.

Lemma parse_number_chars (neg : bool) (s : string) (x : pyfloat) :
  parse_number neg s = Some x -> all_chars float_char s = true.
Proof.
  destruct float_char_facts as (_ & Hd & _).
  change (parse_number neg s) with
    (let '(int_part, n1, s1) := read_digits 0 0 s in
     let '(mantissa, n2, s2) := after_point int_part s1 in
     match (n1 + n2)%nat with
     | O => None
     | S _ =>
         match read_exponent s2 with
         | Some e => Some (Finite (decimal_value neg mantissa (e - Z.of_nat n2)))
         | None => None
         end
     end).
  destruct (read_digits 0 0 s) as [[int_part n1] s1] eqn:E1.
  destruct (after_point int_part s1) as [[mantissa n2] s2] eqn:E2.
  destruct (n1 + n2); [discriminate|].
  destruct (read_exponent s2) as [e|] eqn:E3; [|discriminate]. intros _.
  apply (read_digits_chars _ _ _ _ _ _ _ Hd E1).
  apply (after_point_chars _ _ _ _ _ E2).
  exact (read_exponent_chars _ _ E3).
Qed.

(** A text that [float] reads holds only the characters of numbers. *)
Lemma parse_float_chars (s : string) (x : pyfloat) :
  parse_float s = Some x -> all_chars float_char s = true.
Proof.
  destruct float_char_facts as (Hs & _ & _ & Hu & Hm & Hp & _).
  unfold parse_float.
  destruct (drop_underscores "000" (strip_space s)) as [t|] eqn:Et; [|discriminate].
  destruct (read_sign t) as [neg body] eqn:Eb.
  intros H.
  apply (space_left_chars _ _ Hs), (space_right_chars _ _ Hs).
  apply (drop_underscores_chars _ _ _ _ Hu Et), (read_sign_chars _ _ _ _ Hm Hp Eb).
  destruct (String.eqb (lower_str body) "inf") eqn:E1;
    [exact (word_chars body "inf" eq_refl E1)|].
  destruct (String.eqb (lower_str body) "infinity") eqn:E2;
    [exact (word_chars body "infinity" eq_refl E2)|].
  cbn [orb] in H.
  destruct (String.eqb (lower_str body) "nan") eqn:E3;
    [exact (word_chars body "nan" eq_refl E3)|].
  exact (parse_number_chars _ _ _ H).
Qed.

Lemma clean_value_foreign_last (value : string) (c : ascii) :
  str_in "m3" (value ++ String c "") = false ->
  float_char c = false ->
  char_in c "\(" = false ->
  char_in c "\)*kWhA" = false ->
  clean_value (value ++ String c "") = Raised ValueError.
Proof.
  intros Hm Hf Hl Hr. unfold clean_value. rewrite Hm.
  destruct (lstrip_app_last "\(" value c Hl) as (u & ->).
  rewrite (rstrip_app_last _ u c Hr). unfold py_float.
  destruct (parse_float (u ++ String c "")) as [x|] eqn:E; [|reflexivity].
  apply parse_float_chars in E. rewrite all_chars_app in E.
  apply andb_prop in E as [_ E]. cbn [all_chars] in E.
  rewrite Hf in E. discriminate E.
Qed.

(** X19.  A payload without m3 whose last character is not one that is
    stripped and not one that a number can hold is no number for
    [clean_value]: it raises [ValueError].  Such are the payloads with
    another unit, as volts, and those of a line that has kept its line
    break. *)
Theorem X19_foreign_last_character (value : string) (c : ascii) :
  str_in "m3" (value ++ String c "") = false ->
  float_char c = false ->
  char_in c "\(" = false ->
  char_in c "\)*kWhA" = false ->
  clean_value (value ++ String c "") = Raised ValueError.
Proof. apply clean_value_foreign_last. Qed.

Lemma X19_foreign_last_character_witness :
  clean_value ("(230.1*" ++ String "V" "") = Raised ValueError /\
  clean_value ("(00.244*kW)\r\n" ++ String "'" "") = Raised ValueError.
Proof.
  split.
  - apply (X19_foreign_last_character "(230.1*" "V"); reflexivity.
  - apply (X19_foreign_last_character "(00.244*kW)\r\n" "'"); reflexivity.
Defined.

(** ** A telegram cut short *)

Lemma before_paren_app (s t : string) :
  char_in "(" s = true -> before_paren (s ++ t) = before_paren s.
Proof.
  induction s as [|c s IH]; [discriminate|].
  cbn [char_in String.append before_paren]. rewrite (Ascii.eqb_sym "(" c).
  destruct (Ascii.eqb c "("); [reflexivity|]. cbn [orb]. intros H. now rewrite IH.
Qed.

Lemma from_paren_app (s t : string) :
  char_in "(" s = true -> from_paren (s ++ t) = (from_paren s ++ t)%string.
Proof.
  induction s as [|c s IH]; [discriminate|].
  cbn [char_in String.append from_paren]. rewrite (Ascii.eqb_sym "(" c).
  destruct (Ascii.eqb c "("); [reflexivity|]. cbn [orb]. exact IH.
Qed.

Lemma from_paren_char (c : ascii) (s : string) :
  char_in c s = false -> char_in c (from_paren s) = false.
Proof.
  induction s as [|d s IH]; [reflexivity|]. cbn [from_paren].
  destruct (Ascii.eqb d "("); [auto|]. cbn [char_in]. intros H.
  apply orb_false_iff in H as [_ H]. now apply IH.
Qed.

(** X20.  When [readline] fails right behind a data line of a known code,
    the lines read being plain and none of them the checksum line, the pass
    goes on with the telegram cut short; the value of that last line keeps
    its escaped line break and the closing quote and cannot be cleaned, so
    the loop ends with [ValueError] (the line holding no letter m). *)
Theorem X20_failure_behind_a_known_line (fmt : print_format) (iIter : nat)
  (first : string) (bodies : list string) (last : string) (ex : exn)
  (passes : list serial_port) (v : vars) :
  plain_text first = true -> forallb plain_text bodies = true ->
  plain_text last = true ->
  existsb re_match_bang (map bline (first :: bodies ++ [last])) = false ->
  re_match_digit last = true -> char_in "(" last = true ->
  known (before_paren last) = true -> char_in "m" last = false ->
  is_Exception ex = true ->
  main_loop fmt iIter
    ({| open_raises := None;
        readlines := map Line (map bline (first :: bodies ++ [last])) ++ [ReadRaises ex];
        close_raises := None |} :: passes) v
  = Raised ValueError.
Proof.
  intros Hf Hb Hl Hbang Hd Hp Hk Hm Hex.
  set (lines := map bline (first :: bodies ++ [last])) in *.
  assert (Hread : read_loop (map Line lines ++ [ReadRaises ex]) ""
                  = (assemble lines, ReadFailed ex))
    by (rewrite (read_loop_quiet _ _ _ Hbang); reflexivity).
  assert (Hget : dict_get (before_paren last) (decode_telegram (assemble lines))
                 = Some (from_paren last ++ "\r\n'")%string).
  { unfold decode_telegram, lines.
    change (first :: bodies ++ [last]) with ((first :: bodies) ++ [last]).
    rewrite py_split_assemble; [|cbn [forallb]; now rewrite Hf, Hb | exact Hl].
    cbn [app prefix_first]. rewrite store_lines_fields.
    cbn [filter String.append re_match_digit].
    change (is_digit "b") with false. cbv iota.
    rewrite filter_app. cbn [filter].
    replace (re_match_digit (last ++ "\r\n'")) with true
      by (destruct last; [discriminate Hd | symmetry; exact Hd]).
    rewrite map_app. cbn [map]. unfold field_of at 2.
    rewrite (before_paren_app _ _ Hp), (from_paren_app _ _ Hp).
    apply store_fields_last. intros []. }
  assert (Hraw : clean_value (from_paren last ++ "\r\n'") = Raised ValueError).
  { replace (from_paren last ++ "\r\n'")%string
      with ((from_paren last ++ "\r\n") ++ String "'" "")%string
      by (rewrite append_assoc; reflexivity).
    apply clean_value_foreign_last; try reflexivity.
    apply str_in_needs_first.
    rewrite !char_in_app, (from_paren_char _ _ Hm). reflexivity. }
  cbn [main_loop]. unfold iteration, capture, close_port.
  cbn [open_raises readlines close_raises]. rewrite Hread, Hex. cbn [bind].
  unfold look_for_checksum. cbn [telegram].
  unfold pattern_finditer.
  rewrite (pattern_finditer_at_no_CR _ 0 (assemble_no_CR lines)). cbn [for_each bind].
  unfold process. cbn [good_checksum negb telegram].
  now rewrite (clean_readings_raises _ _ _ Hget Hk Hraw).
Qed.

Lemma X20_failure_behind_a_known_line_witness :
  main_loop fmt_power 0
    [ {| open_raises := None;
         readlines := map Line (map bline ("/XMX5LGBBFG1009"
                                  :: ["1-0:2.7.0(00.000*kW)"] ++ ["1-0:1.7.0(00.244*kW)"]))
                      ++ [ReadRaises SerialException];
         close_raises := None |} ] initial_vars
  = Raised ValueError.
Proof.
  apply (X20_failure_behind_a_known_line fmt_power 0 "/XMX5LGBBFG1009"
           ["1-0:2.7.0(00.000*kW)"] "1-0:1.7.0(00.244*kW)" SerialException []
           initial_vars); reflexivity.
Defined.

(** ** A pass on a telegram in order *)

Lemma bang_is_no_digit (s : string) :
  re_match_bang (bline s) = true -> re_match_digit s = false.
Proof.
  destruct s as [|c s]; [reflexivity|].
  destruct c as [[] [] [] [] [] [] [] []]; intros H;
    first [reflexivity | discriminate H].
Qed.

(** X21.  A pass in the power format on a port that opens and closes and
    delivers plain lines, the last of which is the first to start with an
    exclamation mark: the dictionary is built from the lines between the
    first and the last that start with a digit.  When the values of its
    known codes can be cleaned and the codes 1-0:1.7.0 and 1-0:2.7.0 are
    among them, with the values [x] and [y], the pass ends as the
    conversion of the net power, (x - y)*1000 in binary64, ends: if this is
    a finite number the pass hands out the dictionary, the readings and the
    two powers, if it is infinite the pass raises [OverflowError], and
    [ValueError] if it is no number.  The stated checksum plays no part. *)
Theorem X21_pass_on_a_plain_telegram (iIter : nat)
  (first : string) (bodies : list string) (last : string) (rest : list read_event)
  (v : vars) (readings : list (string * pyfloat)) (raw1 raw2 : string) (x y : pyfloat) :
  plain_text first = true -> forallb plain_text bodies = true ->
  plain_text last = true ->
  existsb re_match_bang (map bline (first :: bodies)) = false ->
  re_match_bang (bline last) = true ->
  let d := fold_left (fun d line => dict_set (before_paren line) (from_paren line) d)
             (filter re_match_digit bodies) [] in
  clean_readings d = Done readings ->
  dict_get "1-0:1.7.0" d = Some raw1 -> clean_value raw1 = Done x ->
  dict_get "1-0:2.7.0" d = Some raw2 -> clean_value raw2 = Done y ->
  iteration fmt_power iIter
    {| open_raises := None;
       readlines := map Line (map bline (first :: bodies)) ++ Line (bline last) :: rest;
       close_raises := None |} v
  = match net_watts x y with
    | Finite _ =>
        Done ({| telegram := assemble (map bline (first :: bodies ++ [last]));
                 good_checksum := true;
                 given_checksum := given_checksum v;
                 calculated_checksum := calculated_checksum v |},
              Values d readings [] [x; y])
    | Infinite _ => Raised OverflowError
    | NaN => Raised ValueError
    end.
Proof.
  intros Hf Hb Hl Hquiet Hbang d Hread H1 Hx H2 Hy.
  assert (Hloop : read_loop (map Line (map bline (first :: bodies))
                               ++ Line (bline last) :: rest) ""
                  = (assemble (map bline (first :: bodies ++ [last])), ChecksumFound)).
  { rewrite (read_loop_quiet _ _ _ Hquiet). cbn [read_loop]. rewrite Hbang.
    f_equal. unfold assemble.
    change (first :: bodies ++ [last]) with ((first :: bodies) ++ [last]).
    rewrite !map_app, join_app. cbn [map join fold_right String.append].
    now rewrite append_empty_r. }
  assert (Hdec : decode_telegram (assemble (map bline (first :: bodies ++ [last]))) = d).
  { rewrite (decode_plain_telegram _ _ _ Hf Hb Hl (bang_is_no_digit _ Hbang)).
    apply fold_store_field_map. }
  unfold iteration, capture, close_port.
  cbn [open_raises readlines close_raises]. rewrite Hloop. cbn [bind].
  unfold look_for_checksum. cbn [telegram]. unfold pattern_finditer.
  rewrite (pattern_finditer_at_no_CR _ 0 (assemble_no_CR _)). cbn [for_each bind].
  unfold process. cbn [good_checksum negb telegram given_checksum calculated_checksum].
  rewrite Hdec, Hread. cbn [bind table_line power_line print_format_eqb orb andb].
  unfold clean_item, dict_item. rewrite H1. cbn [bind]. rewrite Hx. cbn [bind].
  rewrite H2. cbn [bind]. rewrite Hy. cbn [bind].
  destruct (net_watts x y); reflexivity.
Qed.

Lemma X21_pass_on_a_plain_telegram_witness :
  iteration fmt_power 0
    {| open_raises := None;
       readlines := map Line (map bline ("/XMX5LGBBFG1009"
                                :: ["1-0:1.7.0(00.244*kW)"; "1-0:2.7.0(00.000*kW)"]))
                    ++ Line (bline "!0000") :: [Line (bline "/XMX5LGBBFG1009")];
       close_raises := None |} initial_vars
  = Done ({| telegram := assemble (map bline ("/XMX5LGBBFG1009"
                           :: ["1-0:1.7.0(00.244*kW)"; "1-0:2.7.0(00.000*kW)"] ++ ["!0000"]));
             good_checksum := true;
             given_checksum := None;
             calculated_checksum := None |},
          Values [("1-0:1.7.0", "(00.244*kW)"); ("1-0:2.7.0", "(00.000*kW)")]
                 [("1-0:1.7.0", Finite (Qred 0.244)); ("1-0:2.7.0", Finite (Qred 0))]
                 [] [Finite (Qred 0.244); Finite (Qred 0)]) /\
  iteration fmt_power 0
    {| open_raises := None;
       readlines := map Line (map bline ("/XMX5LGBBFG1009"
                                :: ["1-0:1.7.0(inf*kW)"; "1-0:2.7.0(00.000*kW)"]))
                    ++ Line (bline "!0000") :: [];
       close_raises := None |} initial_vars
  = Raised OverflowError.
Proof.
  split.
  - exact (X21_pass_on_a_plain_telegram 0 "/XMX5LGBBFG1009"
             ["1-0:1.7.0(00.244*kW)"; "1-0:2.7.0(00.000*kW)"] "!0000"
             [Line (bline "/XMX5LGBBFG1009")] initial_vars
             [("1-0:1.7.0", Finite (Qred 0.244)); ("1-0:2.7.0", Finite (Qred 0))]
             "(00.244*kW)" "(00.000*kW)" (Finite (Qred 0.244)) (Finite (Qred 0))
             eq_refl eq_refl eq_refl eq_refl eq_refl eq_refl eq_refl eq_refl eq_refl
             eq_refl).
  - exact (X21_pass_on_a_plain_telegram 0 "/XMX5LGBBFG1009"
             ["1-0:1.7.0(inf*kW)"; "1-0:2.7.0(00.000*kW)"] "!0000"
             [] initial_vars
             [("1-0:1.7.0", Infinite false); ("1-0:2.7.0", Finite (Qred 0))]
             "(inf*kW)" "(00.000*kW)" (Infinite false) (Finite (Qred 0))
             eq_refl eq_refl eq_refl eq_refl eq_refl eq_refl eq_refl eq_refl eq_refl
             eq_refl).
Defined.
